(** * Storage Brain SDK: the request / transfer / poll pipeline

    A shallow embedding of the client of [src/src/index.ts] (the class
    [StorageBrain]), of the error classes and [parseApiError] of
    [src/src/errors.ts] and of the constants the client reads, followed by
    the properties of the pipeline.

    Conventions of the embedding.
    - JavaScript numbers that occur here are integer quantities (byte
      counts, milliseconds, HTTP status codes, percentages); they are
      modelled by [Z].  The two places where the source computes with
      fractions, [Math.round((loaded / total) * 100)] and
      [Math.round(progress * 0.8)], are written with exact integer
      arithmetic (see [percent] and [scale_progress]).
    - A JSON value whose TypeScript type is [unknown] is a [JsVal]; a value
      with a declared type is a record or a [string].
    - An [async] function is a state transformer over a [World]: the clock
      read by [Date.now()], what the network will do, and the trace of the
      actions the client performed.  A rejected promise is [Throws]. *)

From Stdlib Require Import ZArith String Ascii List Bool Lia DecimalString.
From Stdlib Require Import Sorted.
Import ListNotations.

Local Open Scope string_scope.
Local Open Scope Z_scope.

#[local] Set Warnings "-register-all".

(** ** JavaScript values *)

Module Js.

Inductive JsVal : Type :=
| JUndefined
| JNull
| JBool (b : bool)
| JNum (n : Z)
| JStr (s : string)
| JArr (items : list JsVal)
| JObj (props : list (string * JsVal)).

(** Own properties of an object, one binding per key. *)
Definition JsObject : Type := list (string * JsVal).

(** [o[k]] on an object: [undefined] when the property is missing. *)
Fixpoint prop (k : string) (o : JsObject) : JsVal :=
  match o with
  | [] => JUndefined
  | (k', v) :: rest => if String.eqb k k' then v else prop k rest
  end.

(** [o?.k] where [o] may be [undefined]. *)
Definition opt_prop (o : option JsObject) (k : string) : JsVal :=
  match o with
  | None => JUndefined
  | Some o => prop k o
  end.

(** Truthiness, as tested by [if (v)] and [v ? a : b]. *)
Definition truthy (v : JsVal) : bool :=
  match v with
  | JUndefined | JNull => false
  | JBool b => b
  | JNum n => negb (n =? 0)
  | JStr s => negb (String.eqb s "")
  | JArr _ | JObj _ => true
  end.

(** The left operand of [??] is replaced when it is [null] or [undefined]. *)
Definition nullish (v : JsVal) : bool :=
  match v with
  | JUndefined | JNull => true
  | _ => false
  end.

Definition coalesce (v d : JsVal) : JsVal := if nullish v then d else v.

(** [x ?? d] on an optional value of a declared type. *)
Definition or_default {A : Type} (x : option A) (d : A) : A :=
  match x with
  | Some a => a
  | None => d
  end.

Definition string_of_Z (n : Z) : string := NilZero.string_of_int (Z.to_int n).

(** ECMAScript [ToString], as applied by a template literal.  Inside
    [Array.prototype.join] the elements [null] and [undefined] print as the
    empty string. *)
Fixpoint to_string (v : JsVal) : string :=
  match v with
  | JUndefined => "undefined"
  | JNull => "null"
  | JBool true => "true"
  | JBool false => "false"
  | JNum n => string_of_Z n
  | JStr s => s
  | JArr items =>
      String.concat ","
        (map (fun x => if nullish x then "" else to_string x) items)
  | JObj _ => "[object Object]"
  end.

End Js.
Import Js.

(** ** constants.ts *)

Module Constants.

Definition ALLOWED_MIME_TYPES : list string :=
  [ "image/jpeg"; "image/png"; "image/webp"; "image/gif"; "image/avif";
    "application/pdf" ].

Inductive ProcessingStatus : Type := pending | processing | completed | failed.

Module RETRY_CONFIG.
Definition maxAttempts : Z := 3.
Definition initialDelayMs : Z := 1000.
Definition maxDelayMs : Z := 10000.
Definition backoffMultiplier : Z := 2.
End RETRY_CONFIG.

End Constants.

(** ** errors.ts *)

Module Errors.

(** An [Error] object.  [MkError] is an error that is not an instance of
    [StorageBrainError] ([TypeError], [DOMException], [SyntaxError], ...);
    [MkSdkError] is an instance of [StorageBrainError] or of one of its
    subclasses, with the fields the base constructor sets and the public
    fields a subclass adds ([own]). *)
Inductive JsError : Type :=
| MkError (name message : string)
| MkSdkError (name message code : string) (statusCode : option Z)
    (details : option JsObject) (own : OwnFields)
with OwnFields : Type :=
| NoFields
| QuotaFields (quotaBytes usedBytes : JsVal)
| CauseField (originalError : option JsError)
| ErrorsField (errors : JsVal).

Definition err_name (e : JsError) : string :=
  match e with
  | MkError n _ => n
  | MkSdkError n _ _ _ _ _ => n
  end.

Definition err_message (e : JsError) : string :=
  match e with
  | MkError _ m => m
  | MkSdkError _ m _ _ _ _ => m
  end.

(** [e.code], [e.statusCode], [e.details]: absent on a plain [Error]. *)
Definition err_code (e : JsError) : option string :=
  match e with
  | MkError _ _ => None
  | MkSdkError _ _ c _ _ _ => Some c
  end.

Definition err_statusCode (e : JsError) : option Z :=
  match e with
  | MkError _ _ => None
  | MkSdkError _ _ _ s _ _ => s
  end.

Definition err_details (e : JsError) : option JsObject :=
  match e with
  | MkError _ _ => None
  | MkSdkError _ _ _ _ d _ => d
  end.


(** [e instanceof StorageBrainError] *)
Definition instanceof_StorageBrainError (e : JsError) : bool :=
  match e with
  | MkError _ _ => false
  | MkSdkError _ _ _ _ _ _ => true
  end.

(** [originalError?.message] *)
Definition cause_message (c : option JsError) : JsVal :=
  match c with
  | Some e => JStr (err_message e)
  | None => JUndefined
  end.

Definition StorageBrainError (message code : string) (statusCode : option Z)
    (details : option JsObject) : JsError :=
  MkSdkError "StorageBrainError" message code statusCode details NoFields.

Definition AuthenticationError (message : option string) : JsError :=
  MkSdkError "AuthenticationError" (or_default message "Authentication failed")
    "AUTHENTICATION_ERROR" (Some 401) None NoFields.

Definition QuotaExceededError (message : option string)
    (quotaBytes usedBytes : JsVal) : JsError :=
  MkSdkError "QuotaExceededError" (or_default message "Storage quota exceeded")
    "QUOTA_EXCEEDED" (Some 403)
    (Some [("quotaBytes", quotaBytes); ("usedBytes", usedBytes)])
    (QuotaFields quotaBytes usedBytes).

Definition InvalidFileTypeError (fileType allowedTypes : JsVal) : JsError :=
  MkSdkError "InvalidFileTypeError"
    ("File type '" ++ to_string fileType ++ "' is not allowed")
    "INVALID_FILE_TYPE" (Some 400)
    (Some [("fileType", fileType); ("allowedTypes", allowedTypes)])
    NoFields.

Definition FileTooLargeError (fileSize maxSize : JsVal) : JsError :=
  MkSdkError "FileTooLargeError"
    ("File size " ++ to_string fileSize ++ " bytes exceeds maximum of "
       ++ to_string maxSize ++ " bytes")
    "FILE_TOO_LARGE" (Some 400)
    (Some [("fileSize", fileSize); ("maxSize", maxSize)])
    NoFields.

Definition FileNotFoundError (fileId : JsVal) : JsError :=
  MkSdkError "FileNotFoundError" ("File not found: " ++ to_string fileId)
    "FILE_NOT_FOUND" (Some 404) (Some [("fileId", fileId)]) NoFields.

Definition NetworkError (message : option string)
    (originalError : option JsError) : JsError :=
  MkSdkError "NetworkError" (or_default message "Network error occurred")
    "NETWORK_ERROR" None
    (Some [("originalError", cause_message originalError)])
    (CauseField originalError).

Definition UploadError (message : string)
    (originalError : option JsError) : JsError :=
  MkSdkError "UploadError" message "UPLOAD_ERROR" None
    (Some [("originalError", cause_message originalError)])
    (CauseField originalError).

Definition ValidationError (message : string) (errors : JsVal) : JsError :=
  MkSdkError "ValidationError" message "VALIDATION_ERROR" (Some 400)
    (Some [("errors", errors)]) (ErrorsField errors).

(** The body of an error response, [{ error?: { code?, message?, details? } }]. *)
Record ApiError : Type := mkApiError {
  code : option string;
  message : option string;
  details : option JsObject
}.

Record ApiErrorResponse : Type := mkApiErrorResponse {
  error : option ApiError
}.

(** [{}], what [response.error ?? {}] falls back to. *)
Definition empty_error : ApiError := mkApiError None None None.

Definition code_is (c : option string) (s : string) : bool :=
  match c with
  | Some c => String.eqb c s
  | None => false
  end.

Definition parseApiError (statusCode : Z) (response : ApiErrorResponse)
    : JsError :=
  let e := or_default (error response) empty_error in
  let code := code e in
  let message := message e in
  let details := details e in
  if code_is code "UNAUTHORIZED" then
    AuthenticationError message
  else if code_is code "QUOTA_EXCEEDED" then
    QuotaExceededError message
      (opt_prop details "quotaBytes") (opt_prop details "usedBytes")
  else if code_is code "INVALID_FILE_TYPE" then
    InvalidFileTypeError
      (opt_prop details "fileType") (opt_prop details "allowedTypes")
  else if code_is code "FILE_TOO_LARGE" then
    FileTooLargeError
      (opt_prop details "fileSize") (opt_prop details "maxSize")
  else if code_is code "FILE_NOT_FOUND" || code_is code "NOT_FOUND" then
    FileNotFoundError (coalesce (opt_prop details "fileId") (JStr "unknown"))
  else if code_is code "VALIDATION_ERROR" then
    ValidationError (or_default message "Validation failed")
      (opt_prop details "errors")
  else
    StorageBrainError (or_default message "An error occurred")
      (or_default code "UNKNOWN_ERROR") (Some statusCode) details.

End Errors.

(** ** types.ts *)

Module Types.

Import Constants.

Record FileInfo : Type := mkFileInfo {
  id : string;
  url : string;
  originalName : string;
  fileType : string;
  sizeBytes : Z;
  context : string;
  tags : option (list (string * string));
  metadata : option JsVal;
  processingStatus : ProcessingStatus;
  createdAt : string
}.

Record UploadMetadata : Type := mkUploadMetadata {
  maxSizeBytes : Z;
  allowedTypes : list string
}.

Record UploadHandshake : Type := mkUploadHandshake {
  fileId : string;
  presignedUrl : string;
  expiresAt : string;
  uploadMetadata : UploadMetadata
}.

Record StorageBrainConfig : Type := mkConfig {
  apiKey : string;
  baseUrl : option string;
  timeout : option Z;
  maxRetries : option nat
}.

(** An [AbortSignal], by the instant at which its owner aborts it
    ([None]: never).  [signal.aborted] is true from that instant on, and the
    signal's [abort] event is dispatched at that instant, once. *)
Record AbortSignal : Type := mkSignal {
  abortAt : option Z
}.

(** [UploadOptions].  The caller's [onProgress] callback records the value
    it is given in the trace of the world, so only its presence is kept. *)
Record UploadOptions : Type := mkUploadOptions {
  opt_context : string;
  opt_tags : option (list (string * string));
  onProgress : bool;
  webhookUrl : option string;
  signal : option AbortSignal
}.

(** A [File] or a [Blob]; only a [File] has a name. *)
Record Blob : Type := mkBlob {
  file_name : option string;
  file_type : string;
  file_size : Z
}.

End Types.

(** ** The world the client runs in *)

Module Runtime.

Import Errors Types.

(** A value given to [throw], or the reason of a rejected promise: an
    [Error] object, or any other value. *)
Inductive Thrown : Type :=
| ThrowError (e : JsError)
| ThrowValue (v : JsVal).

(** How the call of an [async] function ends.  [OutOfFuel] is not a
    JavaScript outcome: it marks a run of the model that was cut off before
    the loop it was in finished. *)
Inductive Outcome (A : Type) : Type :=
| Returns (a : A)
| Throws (t : Thrown)
| OutOfFuel.

Arguments Returns {A} a.
Arguments Throws {A} t.
Arguments OutOfFuel {A}.

(** What the client did, as seen from outside. *)
Inductive Event : Type :=
| EvFetch (method url : string) (headers : list (string * string))
    (body : option JsVal)
| EvXhr (method url : string) (headers : list (string * string)) (body : Blob)
| EvSleep (ms : Z)
| EvProgress (value : Z).

Record ProgressEvent : Type := mkProgressEvent {
  lengthComputable : bool;
  loaded : Z;
  total : Z
}.

(** How a transfer ends when nobody aborts it: the [load] event, with the
    status of the response, or the [error] event. *)
Inductive XhrEnd : Type :=
| XLoad (status : Z)
| XError.

(** What one [XMLHttpRequest] will do.  [XhrThrows]: [open],
    [setRequestHeader] or [send] throws.  [XhrRuns]: the request is sent,
    the upload fires the given [progress] events, each after the given
    delay, and the request ends after [endDelay] more milliseconds. *)
Inductive XhrScript : Type :=
| XhrThrows (t : Thrown)
| XhrRuns (progress : list (N * ProgressEvent)) (endDelay : N) (ending : XhrEnd).

Section World.

(** The type of parsed JSON bodies, [await response.json()]. *)
Context {J : Type}.

(** A [Response].  [ErrorResponse]: [response.ok] is false; [errorBody] is
    what [response.json()] resolves to, [None] when it rejects. *)
Inductive Response : Type :=
| OkResponse (body : Thrown + J)
| ErrorResponse (status : Z) (errorBody : option ApiErrorResponse).

(** What one call of [fetch] will do: after [latency] milliseconds the
    promise rejects (no response: a network failure, or the abort of the
    attempt's own timeout) or resolves to a response. *)
Record FetchScript : Type := mkFetchScript {
  latency : N;
  settles : Thrown + Response
}.

(** The state an [async] function runs in: the clock, which only moves
    forward (by the latency of a call, by the delay of a pause); the script
    of the [n]-th call of [fetch] and the number of calls made so far; the
    same for the transfers; and the trace of what the client did, oldest
    entry first. *)
Record World : Type := mkWorld {
  now : Z;
  net : nat -> FetchScript;
  fetched : nat;
  xhr : nat -> XhrScript;
  sent : nat;
  trace : list Event
}.

Definition M (A : Type) : Type := World -> Outcome A * World.

Definition ret {A : Type} (a : A) : M A := fun w => (Returns a, w).

Definition throw {A : Type} (t : Thrown) : M A := fun w => (Throws t, w).

Definition out_of_fuel {A : Type} : M A := fun w => (OutOfFuel, w).

Definition bind {A B : Type} (c : M A) (k : A -> M B) : M B :=
  fun w =>
    match c w with
    | (Returns a, w') => k a w'
    | (Throws t, w') => (Throws t, w')
    | (OutOfFuel, w') => (OutOfFuel, w')
    end.

(** [try { c } catch (error) { handler }] *)
Definition try_catch {A : Type} (c : M A) (handler : Thrown -> M A) : M A :=
  fun w =>
    match c w with
    | (Throws t, w') => handler t w'
    | r => r
    end.

Definition set_now (t : Z) (w : World) : World :=
  mkWorld t (net w) (fetched w) (xhr w) (sent w) (trace w).

Definition log (e : Event) (w : World) : World :=
  mkWorld (now w) (net w) (fetched w) (xhr w) (sent w) (trace w ++ [e]).

(** [Date.now()] *)
Definition Date_now : M Z := fun w => (Returns (now w), w).

(** [await new Promise((resolve) => setTimeout(resolve, ms))] *)
Definition sleep (ms : Z) : M unit :=
  fun w => (Returns tt, set_now (now w + Z.max 0 ms) (log (EvSleep ms) w)).

(** [await fetch(url, { method, headers, body, signal })] *)
Definition fetch (method url : string) (headers : list (string * string))
    (body : option JsVal) : M Response :=
  fun w =>
    let script := net w (fetched w) in
    let w' :=
      mkWorld (now w + Z.of_N (latency script)) (net w) (S (fetched w))
        (xhr w) (sent w) (trace w ++ [EvFetch method url headers body]) in
    match settles script with
    | inl t => (Throws t, w')
    | inr response => (Returns response, w')
    end.

(** [xhr.open('PUT', url)], the calls of [setRequestHeader], [xhr.send(file)] *)
Definition xhr_send (url : string) (headers : list (string * string))
    (file : Blob) : M (list (N * ProgressEvent) * N * XhrEnd) :=
  fun w =>
    let w' := mkWorld (now w) (net w) (fetched w) (xhr w) (S (sent w)) (trace w) in
    match xhr w (sent w) with
    | XhrThrows t => (Throws t, w')
    | XhrRuns progress endDelay ending =>
        (Returns (progress, endDelay, ending), log (EvXhr "PUT" url headers file) w')
    end.

End World.

Arguments Response : clear implicits.
Arguments FetchScript : clear implicits.
Arguments World : clear implicits.
Arguments M : clear implicits.

Declare Scope monad_scope.
Delimit Scope monad_scope with monad.
Notation "x <- c ;; k" := (bind c (fun x => k))
  (at level 61, c at next level, right associativity) : monad_scope.
Notation "c ;;; k" := (bind c (fun _ => k))
  (at level 61, right associativity) : monad_scope.

End Runtime.

(** ** The client: class [StorageBrain] *)

Module Client.

Import Constants Errors Types Runtime.
Local Open Scope monad_scope.

Definition DEFAULT_BASE_URL : string :=
  "https://storage-brain-api.marlin-pohl.workers.dev".
Definition DEFAULT_TIMEOUT : Z := 30000.
Definition DEFAULT_MAX_RETRIES : nat := 3.

(** Defaults of the parameters of [waitForProcessing]. *)
Definition DEFAULT_MAX_WAIT_MS : Z := 60000.
Definition DEFAULT_POLL_INTERVAL_MS : Z := 1000.

(** The private fields of an instance. *)
Record StorageBrain : Type := mkStorageBrain {
  apiKey : string;
  baseUrl : string;
  timeout : Z;
  maxRetries : nat
}.

(** [s.replace(/\/$/, '')]: one trailing slash is removed. *)
Fixpoint strip_trailing_slash (s : string) : string :=
  match s with
  | EmptyString => EmptyString
  | String c EmptyString => if Ascii.eqb c "/" then EmptyString else s
  | String c rest => String c (strip_trailing_slash rest)
  end.

(** The constructor; [inl] is the error it throws. *)
Definition new_StorageBrain (config : StorageBrainConfig)
    : JsError + StorageBrain :=
  if String.eqb (Types.apiKey config) "" then
    inl (StorageBrainError "API key is required" "CONFIGURATION_ERROR" None None)
  else
    inr (mkStorageBrain
           (Types.apiKey config)
           (strip_trailing_slash (or_default (Types.baseUrl config) DEFAULT_BASE_URL))
           (or_default (Types.timeout config) DEFAULT_TIMEOUT)
           (or_default (Types.maxRetries config) DEFAULT_MAX_RETRIES)).

(** [Math.round((loaded / total) * 100)], for [0 <= loaded] and [0 < total]:
    the nearest integer to [100 * loaded / total]. *)
Definition percent (loaded total : Z) : Z :=
  (200 * loaded + total) / (2 * total).

(** [10 + Math.round(progress * 0.8)] for an integer [progress]: the product
    is never half way between two integers, so the nearest integer to
    [8 * progress / 10] is [floor ((8 * progress + 5) / 10)]. *)
Definition scale_progress (progress : Z) : Z :=
  10 + (8 * progress + 5) / 10.

(** [error instanceof Error ? error : new Error(String(error))] *)
Definition as_Error (error : Thrown) : JsError :=
  match error with
  | ThrowError e => e
  | ThrowValue v => MkError "Error" (to_string v)
  end.

(** [error instanceof StorageBrainError && error.statusCode
     && error.statusCode < 500]; a number is truthy when it is not 0. *)
Definition no_retry (error : Thrown) : bool :=
  match error with
  | ThrowError e =>
      instanceof_StorageBrainError e &&
      match err_statusCode e with
      | Some statusCode => negb (statusCode =? 0) && (statusCode <? 500)
      | None => false
      end
  | ThrowValue _ => false
  end.

(** [Math.min(initialDelayMs * Math.pow(backoffMultiplier, attempt), maxDelayMs)] *)
Definition backoff_delay (attempt : nat) : Z :=
  Z.min (RETRY_CONFIG.initialDelayMs * RETRY_CONFIG.backoffMultiplier ^ Z.of_nat attempt)
        RETRY_CONFIG.maxDelayMs.

Definition string_of_nat (n : nat) : string := string_of_Z (Z.of_nat n).

(** The signal's [abort] event reaches a listener registered at
    [registeredAt] before the instant [t]: the instant of the abort. *)
Definition abort_between (signal : option AbortSignal) (registeredAt t : Z)
    : option Z :=
  match signal with
  | Some s =>
      match abortAt s with
      | Some a => if (registeredAt <? a) && (a <? t) then Some a else None
      | None => None
      end
  | None => None
  end.

(** [signal?.aborted], read at the instant [t]. *)
Definition aborted_at (signal : option AbortSignal) (t : Z) : bool :=
  match signal with
  | Some s =>
      match abortAt s with
      | Some a => a <=? t
      | None => false
      end
  | None => false
  end.

Definition is_terminal (s : ProcessingStatus) : bool :=
  match s with
  | completed | failed => true
  | pending | processing => false
  end.

Section Instance.

Context {J : Type}.

(** The casts [as UploadHandshake] and [as FileInfo] of a parsed body. *)
Variable asUploadHandshake : J -> UploadHandshake.
Variable asFileInfo : J -> FileInfo.

Variable this : StorageBrain.

Abbreviation M := (Runtime.M J).

(** The headers of every call of [fetch]. *)
Definition request_headers : list (string * string) :=
  [("Content-Type", "application/json");
   ("Authorization", "Bearer " ++ apiKey this)].

(** The body of the [try] block of [request]. *)
Definition request_attempt (method url : string) (body : JsVal) : M J :=
  response <- fetch method url request_headers
      (if truthy body then Some body else None) ;;
  match response with
  | ErrorResponse status errorBody =>
      throw (ThrowError
        (parseApiError status (or_default errorBody (mkApiErrorResponse None))))
  | OkResponse (inl t) => throw t
  | OkResponse (inr json) => ret json
  end.

(** The [for] loop of [request], entered at [attempt] with [remaining]
    iterations to go, and the statement after it. *)
Fixpoint request_loop (remaining attempt : nat) (lastError : option JsError)
    (method url : string) (body : JsVal) : M J :=
  match remaining with
  | O =>
      throw (ThrowError
        (NetworkError
           (Some ("Request failed after " ++ string_of_nat (maxRetries this)
                    ++ " attempts"))
           lastError))
  | S remaining' =>
      try_catch (request_attempt method url body)
        (fun error =>
           let lastError := as_Error error in
           if no_retry error then throw error
           else
             (if Z.of_nat attempt <? Z.of_nat (maxRetries this) - 1
              then sleep (backoff_delay attempt)
              else ret tt) ;;;
             request_loop remaining' (S attempt) (Some lastError) method url body)
  end.

Definition request (method path : string) (body : JsVal) : M J :=
  let url := baseUrl this ++ path in
  request_loop (maxRetries this) 0 None method url body.

Definition getFile (fileId : string) : M FileInfo :=
  json <- request "GET" ("/api/v1/files/" ++ fileId) JUndefined ;;
  ret (asFileInfo json).

Definition js_tags (tags : option (list (string * string))) : JsVal :=
  match tags with
  | Some kvs => JObj (map (fun kv => (fst kv, JStr (snd kv))) kvs)
  | None => JUndefined
  end.

Definition js_optional_string (s : option string) : JsVal :=
  match s with
  | Some s => JStr s
  | None => JUndefined
  end.

Definition requestUpload (fileType fileName : string) (fileSizeBytes : Z)
    (context : string) (tags : option (list (string * string)))
    (webhookUrl : option string) : M UploadHandshake :=
  json <- request "POST" "/api/v1/upload/request"
      (JObj [("fileType", JStr fileType);
             ("fileName", JStr fileName);
             ("fileSizeBytes", JNum fileSizeBytes);
             ("context", JStr context);
             ("tags", js_tags tags);
             ("webhookUrl", js_optional_string webhookUrl)]) ;;
  ret (asUploadHandshake json).

(** The transfer waits [delay] milliseconds for its next event.  When the
    signal aborts first, its listener calls [xhr.abort()], and the [abort]
    listener of the request rejects the promise. *)
Definition await_event (signal : option AbortSignal) (registeredAt : Z)
    (delay : N) : M unit :=
  fun w =>
    let t := now w + Z.of_N delay in
    match abort_between signal registeredAt t with
    | Some a =>
        (Throws (ThrowError (UploadError "Upload was cancelled" None)),
         set_now (Z.max (now w) a) w)
    | None => (Returns tt, set_now t w)
    end.

(** The [progress] listener. *)
Definition on_progress_event (onProgress : option (Z -> M unit))
    (event : ProgressEvent) : M unit :=
  match onProgress with
  | Some callback =>
      if lengthComputable event
      then callback (percent (loaded event) (total event))
      else ret tt
  | None => ret tt
  end.

(** The [load] and [error] listeners. *)
Definition on_end (ending : XhrEnd) : M unit :=
  match ending with
  | XLoad status =>
      if (200 <=? status) && (status <? 300) then ret tt
      else throw (ThrowError
             (UploadError ("Upload failed with status " ++ string_of_Z status) None))
  | XError =>
      throw (ThrowError (NetworkError (Some "Network error during upload") None))
  end.

(** The events of the request, dispatched in order until the promise settles. *)
Fixpoint xhr_run (signal : option AbortSignal) (registeredAt : Z)
    (onProgress : option (Z -> M unit))
    (progress : list (N * ProgressEvent)) (endDelay : N) (ending : XhrEnd)
    : M unit :=
  match progress with
  | (delay, event) :: rest =>
      await_event signal registeredAt delay ;;;
      on_progress_event onProgress event ;;;
      xhr_run signal registeredAt onProgress rest endDelay ending
  | [] =>
      await_event signal registeredAt endDelay ;;;
      on_end ending
  end.

Definition uploadToPresignedUrl (presignedUrl : string) (file : Blob)
    (contentType : string) (onProgress : option (Z -> M unit))
    (signal : option AbortSignal) : M unit :=
  let uploadUrl :=
    if prefix "/" presignedUrl
    then baseUrl this ++ presignedUrl
    else presignedUrl in
  try_catch
    (registeredAt <- Date_now ;;
     script <- xhr_send uploadUrl
         (("Content-Type", contentType) ::
          (if prefix "/" presignedUrl
           then [("Authorization", "Bearer " ++ apiKey this)]
           else []))
         file ;;
     xhr_run signal registeredAt onProgress
       (fst (fst script)) (snd (fst script)) (snd script))
    (fun error =>
       match error with
       | ThrowError e =>
           if instanceof_StorageBrainError e then throw error
           else throw (ThrowError (UploadError "Failed to upload file" (Some e)))
       | ThrowValue _ =>
           throw (ThrowError (UploadError "Failed to upload file" None))
       end).

(** [signal?.aborted] *)
Definition signal_aborted (signal : option AbortSignal) : M bool :=
  fun w => (Returns (aborted_at signal (now w)), w).

(** The [while] loop of [waitForProcessing] and the statement after it. *)
Fixpoint poll_loop (fuel : nat) (startTime : Z) (fileId : string)
    (signal : option AbortSignal) (maxWaitMs pollIntervalMs : Z)
    : M FileInfo :=
  match fuel with
  | O => out_of_fuel
  | S fuel' =>
      t <- Date_now ;;
      if t - startTime <? maxWaitMs then
        aborted <- signal_aborted signal ;;
        if aborted then
          throw (ThrowError (UploadError "Operation was cancelled" None))
        else
          file <- getFile fileId ;;
          if is_terminal (processingStatus file) then ret file
          else
            sleep pollIntervalMs ;;;
            poll_loop fuel' startTime fileId signal maxWaitMs pollIntervalMs
      else
        getFile fileId
  end.

Definition waitForProcessing (fuel : nat) (fileId : string)
    (signal : option AbortSignal) (maxWaitMs pollIntervalMs : Z)
    : M FileInfo :=
  startTime <- Date_now ;;
  poll_loop fuel startTime fileId signal maxWaitMs pollIntervalMs.

(** [onProgress?.(value)] *)
Definition report (options : UploadOptions) (value : Z) : M unit :=
  if onProgress options
  then fun w => (Returns tt, log (EvProgress value) w)
  else ret tt.

Definition upload (fuel : nat) (file : Blob) (options : UploadOptions)
    : M FileInfo :=
  let fileName := or_default (file_name file) "file" in
  let fileType := file_type file in
  let fileSize := file_size file in
  if negb (existsb (String.eqb fileType) ALLOWED_MIME_TYPES) then
    throw (ThrowError
      (InvalidFileTypeError (JStr fileType) (JArr (map JStr ALLOWED_MIME_TYPES))))
  else
    handshake <- requestUpload fileType fileName fileSize
        (opt_context options) (opt_tags options) (webhookUrl options) ;;
    report options 10 ;;;
    uploadToPresignedUrl (presignedUrl handshake) file fileType
      (Some (fun progress => report options (scale_progress progress)))
      (signal options) ;;;
    report options 90 ;;;
    fileInfo <- waitForProcessing fuel (fileId handshake) (signal options)
        DEFAULT_MAX_WAIT_MS DEFAULT_POLL_INTERVAL_MS ;;
    report options 100 ;;;
    ret fileInfo.

End Instance.

End Client.

(** ** The vocabulary of the specification *)

Module Taxonomy.

Import Errors Runtime.

(** The closed set of error kinds. *)
Inductive ErrorKind : Type :=
| Configuration
| Authentication
| QuotaExceeded
| InvalidFileType
| FileTooLarge
| FileNotFound
| Validation
| Network
| Upload
| Generic.

(** The kind of an error is its class; the base class is the catch-all,
    except for the error of the constructor of the client. *)
Definition kind_of (e : JsError) : option ErrorKind :=
  match e with
  | MkError _ _ => None
  | MkSdkError name _ code _ _ _ =>
      if String.eqb name "AuthenticationError" then Some Authentication
      else if String.eqb name "QuotaExceededError" then Some QuotaExceeded
      else if String.eqb name "InvalidFileTypeError" then Some InvalidFileType
      else if String.eqb name "FileTooLargeError" then Some FileTooLarge
      else if String.eqb name "FileNotFoundError" then Some FileNotFound
      else if String.eqb name "ValidationError" then Some Validation
      else if String.eqb name "NetworkError" then Some Network
      else if String.eqb name "UploadError" then Some Upload
      else if String.eqb name "StorageBrainError" then
        Some (if String.eqb code "CONFIGURATION_ERROR" then Configuration else Generic)
      else None
  end.

(** The classification table: the kind a recognized server code stands for. *)
Definition kind_of_code (c : string) : option ErrorKind :=
  if String.eqb c "UNAUTHORIZED" then Some Authentication
  else if String.eqb c "QUOTA_EXCEEDED" then Some QuotaExceeded
  else if String.eqb c "INVALID_FILE_TYPE" then Some InvalidFileType
  else if String.eqb c "FILE_TOO_LARGE" then Some FileTooLarge
  else if String.eqb c "FILE_NOT_FOUND" then Some FileNotFound
  else if String.eqb c "NOT_FOUND" then Some FileNotFound
  else if String.eqb c "VALIDATION_ERROR" then Some Validation
  else None.

(** The detail fields each kind is documented to carry. *)
Definition detail_fields (k : ErrorKind) : list string :=
  match k with
  | QuotaExceeded => ["quotaBytes"; "usedBytes"]
  | InvalidFileType => ["fileType"; "allowedTypes"]
  | FileTooLarge => ["fileSize"; "maxSize"]
  | FileNotFound => ["fileId"]
  | Validation => ["errors"]
  | _ => []
  end.

(** The status each kind carries, whatever the response said. *)
Definition kind_status (k : ErrorKind) : option Z :=
  match k with
  | Authentication => Some 401
  | QuotaExceeded => Some 403
  | InvalidFileType => Some 400
  | FileTooLarge => Some 400
  | FileNotFound => Some 404
  | Validation => Some 400
  | _ => None
  end.


(** The values given to the caller's progress callback, in order. *)
Fixpoint progress_values (events : list Event) : list Z :=
  match events with
  | [] => []
  | EvProgress v :: rest => v :: progress_values rest
  | _ :: rest => progress_values rest
  end.

(** How the [try] block of [request] ends on a call of [fetch] that
    follows the given script. *)
Definition attempt_outcome {J : Type} (script : FetchScript J) : Outcome J :=
  match settles script with
  | inl t => Throws t
  | inr (ErrorResponse status errorBody) =>
      Throws (ThrowError
        (parseApiError status (or_default errorBody (mkApiErrorResponse None))))
  | inr (OkResponse (inl t)) => Throws t
  | inr (OkResponse (inr json)) => Returns json
  end.


(** The entry of the trace for one call of [fetch] by [request]. *)
Definition request_event (this : Client.StorageBrain) (method url : string)
    (body : JsVal) : Event :=
  EvFetch method url (Client.request_headers this)
    (if truthy body then Some body else None).

(** The world once the next call of [fetch] has settled. *)
Definition after_fetch {J : Type} (w : World J) (ev : Event) : World J :=
  mkWorld (now w + Z.of_N (latency (net w (fetched w)))) (net w)
    (S (fetched w)) (xhr w) (sent w) (trace w ++ [ev]).

(** The world after the pause that follows a failed attempt. *)
Definition after_backoff {J : Type} (this : Client.StorageBrain)
    (attempt : nat) (w : World J) : World J :=
  if Z.of_nat attempt <? Z.of_nat (Client.maxRetries this) - 1
  then snd (sleep (Client.backoff_delay attempt) w)
  else w.

(** The entry of the trace for one poll of the status of a file. *)
Definition poll_event (this : Client.StorageBrain) (fileId : string) : Event :=
  request_event this "GET"
    (Client.baseUrl this ++ "/api/v1/files/" ++ fileId) JUndefined.

(** The world after one poll that settles and the pause that follows it. *)
Definition after_poll {J : Type} (this : Client.StorageBrain)
    (fileId : string) (pollIntervalMs : Z) (w : World J) : World J :=
  snd (sleep pollIntervalMs (after_fetch w (poll_event this fileId))).

(** A progress callback that returns normally and does nothing but report:
    it leaves the clock and the network alone and adds to the trace. *)
Definition reporter {J : Type} (callback : Z -> M J unit) : Prop :=
  forall p w, exists evs,
    callback p w =
    (Returns tt,
     mkWorld (now w) (net w) (fetched w) (xhr w) (sent w) (trace w ++ evs)).

(** The time a transfer takes from [send] to its last event. *)
Fixpoint transfer_duration (progress : list (N * ProgressEvent)) (endDelay : N)
    : Z :=
  match progress with
  | [] => Z.of_N endDelay
  | (delay, _) :: rest => Z.of_N delay + transfer_duration rest endDelay
  end.



(** Between two worlds the client talked to the API only: the transfers and
    the values reported to the caller are the same. *)
Definition quiet {J : Type} (w w' : World J) : Prop :=
  xhr w' = xhr w /\ sent w' = sent w /\
  progress_values (trace w') = progress_values (trace w).

(** The address a transfer to [presignedUrl] is opened on, and the headers
    it is given. *)
Definition transfer_url (this : Client.StorageBrain) (presignedUrl : string)
    : string :=
  if prefix "/" presignedUrl
  then Client.baseUrl this ++ presignedUrl
  else presignedUrl.

Definition transfer_headers (this : Client.StorageBrain)
    (presignedUrl contentType : string) : list (string * string) :=
  ("Content-Type", contentType) ::
  (if prefix "/" presignedUrl
   then [("Authorization", "Bearer " ++ Client.apiKey this)]
   else []).

(** The world once the transfer has been sent. *)
Definition after_send {J : Type} (w : World J) (ev : Event) : World J :=
  mkWorld (now w) (net w) (fetched w) (xhr w) (S (sent w)) (trace w ++ [ev]).

End Taxonomy.

(** ** Sample runs *)

Module Samples.

Import Constants Errors Types Runtime Client.

(** A parsed body that can be read as a handshake and as a file record. *)
Definition Json : Type := (UploadHandshake * FileInfo)%type.

Definition client : StorageBrain :=
  mkStorageBrain "sk_test_1" "https://api.example" 30000 3.

Definition record (status : ProcessingStatus) : FileInfo :=
  mkFileInfo "f1" "https://cdn.example/f1" "a.png" "image/png" 2048 "default"
    None None status "2024-01-01T00:00:00Z".

Definition slot (destination : string) : UploadHandshake :=
  mkUploadHandshake "f1" destination "2024-01-01T01:00:00Z"
    (mkUploadMetadata 1048576 ALLOWED_MIME_TYPES).

Definition json (destination : string) (status : ProcessingStatus) : Json :=
  (slot destination, record status).

Definition replies (latency : N) (j : Json) : FetchScript Json :=
  mkFetchScript latency (inr (OkResponse (inr j))).

Definition fails (status : Z) (body : option ApiErrorResponse) : FetchScript Json :=
  mkFetchScript 20 (inr (ErrorResponse status body)).


Definition coded (c : string) (d : option JsObject) : ApiErrorResponse :=
  mkApiErrorResponse (Some (mkApiError (Some c) None d)).

(** A transfer of 2048 bytes in three progress events, answered with 200. *)
Definition three_steps : XhrScript :=
  XhrRuns [(10%N, mkProgressEvent true 0 2048);
           (10%N, mkProgressEvent true 1024 2048);
           (10%N, mkProgressEvent true 2048 2048)]
    5 (XLoad 200).

Definition rejected_transfer : XhrScript :=
  XhrRuns [] 5 (XLoad 500).

Definition start (network : nat -> FetchScript Json) (transfer : XhrScript)
    : World Json :=
  mkWorld 0 network 0 (fun _ => transfer) 0 [].

(** The slot is granted, then the file is found completed. *)
Definition smooth : nat -> FetchScript Json :=
  fun i =>
    match i with
    | O => replies 50 (json "/api/v1/upload/f1" pending)
    | _ => replies 50 (json "" completed)
    end.

(** The file never leaves [processing]. *)
Definition stuck : nat -> FetchScript Json :=
  fun _ => replies 0 (json "" processing).

Definition png : Blob := mkBlob (Some "a.png") "image/png" 2048.
Definition text : Blob := mkBlob (Some "a.txt") "text/plain" 12.

Definition with_progress (s : option AbortSignal) : UploadOptions :=
  mkUploadOptions "default" None true None s.

End Samples.

(** ** The other methods of the client *)

Module Api.

Import Constants Errors Types Runtime Client.
Local Open Scope monad_scope.

Record ListFilesOptions : Type := mkListFilesOptions {
  limit : option Z;
  cursor : option string;
  context : option string;
  fileType : option string
}.

Record ListFilesResult : Type := mkListFilesResult {
  files : list FileInfo;
  nextCursor : option string;
  total : Z
}.

Record QuotaInfo : Type := mkQuotaInfo {
  quotaBytes : Z;
  usedBytes : Z;
  availableBytes : Z;
  usagePercent : Z
}.

Record TenantInfo : Type := mkTenantInfo {
  id : string;
  name : string;
  allowedFileTypes : option (list string);
  createdAt : string
}.

(** *** [URLSearchParams]

    A string is read as the bytes of its UTF-8 encoding.  The serializer of
    [application/x-www-form-urlencoded] keeps the ASCII letters and digits
    and the four characters [*], [-], [.] and [_], writes a space as [+],
    and writes any other byte as [%] and two upper-case hexadecimal
    digits. *)

Definition is_unreserved (c : ascii) : bool :=
  let n := nat_of_ascii c in
  ((48 <=? n) && (n <=? 57) || (65 <=? n) && (n <=? 90) ||
   (97 <=? n) && (n <=? 122) ||
   (n =? 42) || (n =? 45) || (n =? 46) || (n =? 95))%nat.

Definition hex_digit (n : nat) : ascii :=
  nth n ["0"; "1"; "2"; "3"; "4"; "5"; "6"; "7"; "8"; "9";
         "A"; "B"; "C"; "D"; "E"; "F"]%char "0"%char.

Definition encode_byte (c : ascii) : string :=
  if is_unreserved c then String c EmptyString
  else if Ascii.eqb c " " then "+"
  else
    String "%"
      (String (hex_digit (nat_of_ascii c / 16))
         (String (hex_digit (nat_of_ascii c mod 16)) EmptyString)).

Fixpoint urlencode (s : string) : string :=
  match s with
  | EmptyString => EmptyString
  | String c rest => encode_byte c ++ urlencode rest
  end.

Definition URLSearchParams : Type := list (string * string).

(** [params.set(name, value)]: the first pair of that name takes the value
    and the others of that name are removed; without one, the pair is
    appended. *)
Fixpoint set_first (name value : string) (params : URLSearchParams)
    : URLSearchParams :=
  match params with
  | [] => []
  | (k, v) :: rest =>
      if String.eqb k name
      then (name, value) ::
           filter (fun kv => negb (String.eqb (fst kv) name)) rest
      else (k, v) :: set_first name value rest
  end.

Definition set (name value : string) (params : URLSearchParams)
    : URLSearchParams :=
  if existsb (fun kv => String.eqb (fst kv) name) params
  then set_first name value params
  else (params ++ [(name, value)])%list.

(** [params.toString()] *)
Definition toString (params : URLSearchParams) : string :=
  String.concat "&"
    (map (fun kv => urlencode (fst kv) ++ "=" ++ urlencode (snd kv)) params).

(** [if (options?.f) params.set(name, text)]: a field that is missing, or
    falsy (the number 0, the empty string), sets nothing. *)
Definition set_if {A : Type} (field : option A) (is_truthy : A -> bool)
    (name : string) (text : A -> string) (params : URLSearchParams)
    : URLSearchParams :=
  match field with
  | Some a => if is_truthy a then set name (text a) params else params
  | None => params
  end.

Definition nonzero (n : Z) : bool := negb (n =? 0).
Definition nonempty (s : string) : bool := negb (String.eqb s "").

(** The four fields of [options?.], read on an [options] that may be
    [undefined]. *)
Definition field {A : Type} (options : option ListFilesOptions)
    (f : ListFilesOptions -> option A) : option A :=
  match options with
  | Some o => f o
  | None => None
  end.

(** The parameters [listFiles] sets, and the path it requests. *)
Definition listFiles_params (options : option ListFilesOptions)
    : URLSearchParams :=
  let params := [] in
  let params := set_if (field options limit) nonzero "limit" string_of_Z params in
  let params := set_if (field options cursor) nonempty "cursor" (fun s => s) params in
  let params := set_if (field options context) nonempty "context" (fun s => s) params in
  let params := set_if (field options fileType) nonempty "fileType" (fun s => s) params in
  params.

Definition listFiles_path (options : option ListFilesOptions) : string :=
  let query := toString (listFiles_params options) in
  if nonempty query then "/api/v1/files?" ++ query else "/api/v1/files".

Section Methods.

Context {J : Type}.

(** The casts of a parsed body to the type each method declares. *)
Variable asListFilesResult : J -> ListFilesResult.
Variable asQuotaInfo : J -> QuotaInfo.
Variable asTenantInfo : J -> TenantInfo.

Variable this : StorageBrain.

Definition listFiles (options : option ListFilesOptions)
    : Runtime.M J ListFilesResult :=
  json <- request this "GET" (listFiles_path options) JUndefined ;;
  ret (asListFilesResult json).

Definition deleteFile (fileId : string) : Runtime.M J unit :=
  request this "DELETE" ("/api/v1/files/" ++ fileId) JUndefined ;;;
  ret tt.

Definition getQuota : Runtime.M J QuotaInfo :=
  json <- request this "GET" "/api/v1/tenant/quota" JUndefined ;;
  ret (asQuotaInfo json).

Definition getTenantInfo : Runtime.M J TenantInfo :=
  json <- request this "GET" "/api/v1/tenant/info" JUndefined ;;
  ret (asTenantInfo json).

End Methods.

End Api.

(** ** Further vocabulary *)

Module Observations.

Import Constants Errors Types Runtime Client Taxonomy.


(** A body that carries the given code, message and details. *)
Definition error_body (c : string) (m : option string) (d : option JsObject)
    : ApiErrorResponse :=
  mkApiErrorResponse (Some (mkApiError (Some c) m d)).

(** The delays of the pauses in a trace, in order. *)
Fixpoint sleep_values (events : list Event) : list Z :=
  match events with
  | [] => []
  | EvSleep ms :: rest => ms :: sleep_values rest
  | _ :: rest => sleep_values rest
  end.

(** The time [k] failed attempts take, from the attempt numbered [attempt]
    on: the latency of each call, read from the script at [start] and after,
    and the pause that follows it. *)
Fixpoint retry_elapsed {J : Type} (net : nat -> FetchScript J)
    (start attempt k : nat) : Z :=
  match k with
  | O => 0
  | S k' =>
      Z.of_N (latency (net start)) + backoff_delay attempt +
      retry_elapsed net (S start) (S attempt) k'
  end.

(** An entry of the trace that [request] may add: the call of [fetch] it
    repeats, or a pause. *)
Definition request_or_pause (call : Event) (ev : Event) : Prop :=
  ev = call \/ exists ms, ev = EvSleep ms.

(** Between [w] and [w'] the trace gained nothing but repetitions of
    [call] and pauses. *)
Definition calls_only {J : Type} (call : Event) (w w' : World J) : Prop :=
  exists evs, trace w' = (trace w ++ evs)%list /\
              Forall (request_or_pause call) evs.

(** The world after [n] polls that each found the file in progress and
    were each followed by the pause. *)
Definition polled {J : Type} (this : StorageBrain) (fileId : string)
    (pollIntervalMs : Z) (n : nat) (w : World J) : World J :=
  Nat.iter n (after_poll this fileId pollIntervalMs) w.

(** The first [n] turns of the polling loop all go round: each starts before
    the deadline with a signal that is not aborted, and its poll succeeds at
    the first attempt and finds the file in progress. *)
Definition in_progress_for {J : Type} (asFileInfo : J -> FileInfo)
    (this : StorageBrain) (fileId : string) (signal : option AbortSignal)
    (startTime maxWaitMs pollIntervalMs : Z) (n : nat) (w : World J) : Prop :=
  forall i, (i < n)%nat ->
    now (polled this fileId pollIntervalMs i w) - startTime < maxWaitMs /\
    aborted_at signal (now (polled this fileId pollIntervalMs i w)) = false /\
    exists json,
      attempt_outcome (net w (fetched w + i)) = Returns json /\
      is_terminal (processingStatus (asFileInfo json)) = false.

(** How a transfer that nobody aborts ends. *)
Definition transfer_result (ending : XhrEnd) : Outcome unit :=
  match ending with
  | XLoad status =>
      if (200 <=? status) && (status <? 300) then Returns tt
      else Throws (ThrowError
             (UploadError ("Upload failed with status " ++ string_of_Z status) None))
  | XError =>
      Throws (ThrowError (NetworkError (Some "Network error during upload") None))
  end.

(** The signal does not abort the transfer sent at [sentAt] that lasts
    [duration]: there is no signal, or it aborts too early to be heard, or
    not before the last event. *)
Definition not_aborted_during (signal : option AbortSignal)
    (sentAt duration : Z) : Prop :=
  forall t, t <= sentAt + duration -> abort_between signal sentAt t = None.




(** The number of times a character occurs in a string. *)
Fixpoint count_char (c : ascii) (s : string) : nat :=
  match s with
  | EmptyString => 0%nat
  | String c' rest =>
      ((if Ascii.eqb c' c then 1 else 0) + count_char c rest)%nat
  end.

(** Every character of the string passes the test. *)
Fixpoint all_chars (test : ascii -> bool) (s : string) : bool :=
  match s with
  | EmptyString => true
  | String c rest => test c && all_chars test rest
  end.

(** The characters the serializer of a query writes for a name or a value:
    those it keeps, and the [%] and [+] of its escapes. *)
Definition query_safe (c : ascii) : bool :=
  Api.is_unreserved c || Ascii.eqb c "%" || Ascii.eqb c "+".

(** The parameter a field of the options gives, if any. *)
Definition entry {A : Type} (field : option A) (is_truthy : A -> bool)
    (name : string) (text : A -> string) : Api.URLSearchParams :=
  match field with
  | Some a => if is_truthy a then [(name, text a)] else []
  | None => []
  end.

End Observations.

(** ** More sample runs *)

Module MoreSamples.

Import Constants Errors Types Runtime Client Samples.

(** Two responses with status 500, then the record. *)
Definition flaky : nat -> FetchScript Json :=
  fun i =>
    match i with
    | O | S O => fails 500 None
    | _ => replies 30 (json "" completed)
    end.

Definition server_down : nat -> FetchScript Json :=
  fun _ => fails 503 None.

(** The file is pending, then processing, then completed. *)
Definition progressing : nat -> FetchScript Json :=
  fun i =>
    match i with
    | O => replies 0 (json "" pending)
    | S O => replies 0 (json "" processing)
    | _ => replies 0 (json "" completed)
    end.

Definition missing : nat -> FetchScript Json :=
  fun _ => fails 404 (Some (coded "NOT_FOUND" None)).


Definition no_retries : StorageBrainConfig :=
  mkConfig "sk_test_1" (Some "https://api.example/") None (Some 0%nat).

Definition without_key : StorageBrainConfig :=
  mkConfig "" None None None.

End MoreSamples.

(** * Properties *)

Import Constants Errors Types Runtime Client Taxonomy.

(** ** Error classification *)

(** A recognized code is one of the seven of the table. *)
Lemma recognized_code_cases (c : string) (k : ErrorKind) :
  kind_of_code c = Some k ->
  (c = "UNAUTHORIZED" /\ k = Authentication) \/
  (c = "QUOTA_EXCEEDED" /\ k = QuotaExceeded) \/
  (c = "INVALID_FILE_TYPE" /\ k = InvalidFileType) \/
  (c = "FILE_TOO_LARGE" /\ k = FileTooLarge) \/
  (c = "FILE_NOT_FOUND" /\ k = FileNotFound) \/
  (c = "NOT_FOUND" /\ k = FileNotFound) \/
  (c = "VALIDATION_ERROR" /\ k = Validation).
Proof.
  unfold kind_of_code.
  repeat match goal with
  | |- context [String.eqb c ?s] =>
      destruct (String.eqb_spec c s) as [-> | _];
      [ intros [= <-]; tauto | ]
  end.
  discriminate.
Qed.

(** Case analysis on a proof [H] of seven alternatives [_ /\ k = _]: the
    second equation of each is used to replace [k]. *)
Ltac seven_kinds H :=
  destruct H as [[_ ->] | [[_ ->] | [[_ ->] | [[_ ->] | [[_ ->] | [[_ ->] |
    [_ ->]]]]]]].

(** What [parseApiError] returns on each recognized code. *)
Lemma parseApiError_recognized (statusCode : Z) (response : ApiErrorResponse)
    (e : ApiError) (c : string) (k : ErrorKind) :
  error response = Some e ->
  code e = Some c ->
  kind_of_code c = Some k ->
  parseApiError statusCode response =
  match k with
  | Authentication => AuthenticationError (message e)
  | QuotaExceeded =>
      QuotaExceededError (message e)
        (opt_prop (details e) "quotaBytes") (opt_prop (details e) "usedBytes")
  | InvalidFileType =>
      InvalidFileTypeError
        (opt_prop (details e) "fileType") (opt_prop (details e) "allowedTypes")
  | FileTooLarge =>
      FileTooLargeError
        (opt_prop (details e) "fileSize") (opt_prop (details e) "maxSize")
  | FileNotFound =>
      FileNotFoundError (coalesce (opt_prop (details e) "fileId") (JStr "unknown"))
  | Validation =>
      ValidationError (or_default (message e) "Validation failed")
        (opt_prop (details e) "errors")
  | _ => parseApiError statusCode response
  end.
Proof.
  intros Hbody Hcode Hkind.
  unfold parseApiError. rewrite Hbody. cbn [or_default]. rewrite Hcode.
  destruct (recognized_code_cases c k Hkind) as [[-> ->] | [[-> ->] | [[-> ->] | [[-> ->] |
    [[-> ->] | [[-> ->] | [-> ->]]]]]]]; reflexivity.
Qed.

(** C1. For a body whose code is UNAUTHORIZED, QUOTA_EXCEEDED,
    INVALID_FILE_TYPE, FILE_TOO_LARGE, FILE_NOT_FOUND, NOT_FOUND or
    VALIDATION_ERROR, [parseApiError] returns an error of exactly the kind
    the table gives for the code; its details object has exactly the fields
    documented for that kind; every such field holds the value the details
    of the body give for it; and the file id of a FileNotFound error is the
    string "unknown" when the body gives none. *)
Theorem parseApiError_kind_and_details (statusCode : Z) (response : ApiErrorResponse)
    (e : ApiError) (c : string) (k : ErrorKind) :
  error response = Some e ->
  code e = Some c ->
  kind_of_code c = Some k ->
  let r := parseApiError statusCode response in
  kind_of r = Some k /\
  map fst (or_default (err_details r) []) = detail_fields k /\
  (forall f, In f (detail_fields k) -> f <> "fileId" ->
     opt_prop (err_details r) f = opt_prop (details e) f) /\
  (k = FileNotFound ->
     opt_prop (err_details r) "fileId" =
       coalesce (opt_prop (details e) "fileId") (JStr "unknown")) /\
  (k = FileNotFound -> opt_prop (details e) "fileId" = JUndefined ->
     opt_prop (err_details r) "fileId" = JStr "unknown").
Proof.
  intros Hbody Hcode Hkind r. subst r.
  rewrite (parseApiError_recognized statusCode response e c k Hbody Hcode Hkind).
  seven_kinds (recognized_code_cases c k Hkind);
  (split; [reflexivity | split; [reflexivity | ]]);
  (split; [ intros f Hf Hne; cbn in Hf;
            repeat (destruct Hf as [<- | Hf]; [ try reflexivity; congruence | ]);
            contradiction | ]);
  (split; [ intros Hk; try discriminate Hk; reflexivity
          | intros Hk Habs; try discriminate Hk; cbn; rewrite Habs; reflexivity ]).
Qed.

(** The status an error of a recognized code carries is the constant of its
    kind, whatever status the response had. *)
Lemma recognized_status_fixed (statusCode : Z) (response : ApiErrorResponse)
    (e : ApiError) (c : string) (k : ErrorKind) :
  error response = Some e ->
  code e = Some c ->
  kind_of_code c = Some k ->
  err_statusCode (parseApiError statusCode response) = kind_status k.
Proof.
  intros Hbody Hcode Hkind.
  rewrite (parseApiError_recognized statusCode response e c k Hbody Hcode Hkind).
  seven_kinds (recognized_code_cases c k Hkind); reflexivity.
Qed.


(** ** The retry loop of [request] *)

Section Request.

Context {J : Type}.
Variable this : StorageBrain.
Variables method url : string.
Variable body : JsVal.

Lemma request_attempt_spec (w : World J) :
  request_attempt this method url body w =
  (attempt_outcome (net w (fetched w)),
   after_fetch w (request_event this method url body)).
Proof.
  unfold request_attempt, bind, fetch, attempt_outcome, after_fetch, request_event.
  destruct (settles (net w (fetched w))) as [t | [[t | json] | status errorBody]];
    reflexivity.
Qed.



(** An attempt that succeeds ends the loop. *)
Lemma request_loop_success remaining attempt lastError (w : World J) json :
  attempt_outcome (net w (fetched w)) = Returns json ->
  request_loop this (S remaining) attempt lastError method url body w =
  (Returns json, after_fetch w (request_event this method url body)).
Proof.
  intros H. cbn [request_loop]. unfold try_catch.
  rewrite request_attempt_spec, H. reflexivity.
Qed.

(** A failure the [catch] block rethrows ends the loop. *)
Lemma request_loop_rethrow remaining attempt lastError (w : World J) t :
  attempt_outcome (net w (fetched w)) = Throws t ->
  no_retry t = true ->
  request_loop this (S remaining) attempt lastError method url body w =
  (Throws t, after_fetch w (request_event this method url body)).
Proof.
  intros H Ht. cbn [request_loop]. unfold try_catch.
  rewrite request_attempt_spec, H, Ht. reflexivity.
Qed.

(** Any other failure is remembered and the loop goes on. *)
Lemma request_loop_retry remaining attempt lastError (w : World J) t :
  attempt_outcome (net w (fetched w)) = Throws t ->
  no_retry t = false ->
  request_loop this (S remaining) attempt lastError method url body w =
  request_loop this remaining (S attempt) (Some (as_Error t)) method url body
    (after_backoff this attempt
       (after_fetch w (request_event this method url body))).
Proof.
  intros H Ht. cbn [request_loop]. unfold try_catch.
  rewrite request_attempt_spec, H, Ht. unfold bind, after_backoff.
  destruct (_ <? _); reflexivity.
Qed.


(** The statuses [parseApiError] gives to an error. *)
Lemma parseApiError_status status response :
  instanceof_StorageBrainError (parseApiError status response) = true /\
  exists s, err_statusCode (parseApiError status response) = Some s /\
            (s = 400 \/ s = 401 \/ s = 403 \/ s = 404 \/ s = status).
Proof.
  unfold parseApiError.
  repeat match goal with
  | |- context [if ?b then _ else _] => destruct b
  end; (split; [reflexivity | eexists; split; [reflexivity | tauto]]).
Qed.

Lemma no_retry_status e s :
  instanceof_StorageBrainError e = true ->
  err_statusCode e = Some s -> s <> 0 -> s < 500 ->
  no_retry (ThrowError e) = true.
Proof.
  intros Hi Hs Hnz Hlt. cbn. rewrite Hi, Hs. cbn.
  apply andb_true_iff. split.
  - apply negb_true_iff, Z.eqb_neq. exact Hnz.
  - apply Z.ltb_lt. exact Hlt.
Qed.


End Request.

Section RequestClaims.

Context {J : Type}.
Variable this : StorageBrain.



(** C9. An error classified from a recognized code carries the status of
    its kind (401, 403, 400, 400, 404, 404 and 400 for the seven codes),
    whatever the status of the response; the retry loop therefore rethrows
    it at once, after one call of [fetch] and without a pause, also when the
    response had a status of 500 or more. *)
Theorem recognized_code_status_and_no_retry :
  forall method path body (w : World J) status response e c k,
  (0 < maxRetries this)%nat ->
  settles (net w (fetched w)) = inr (ErrorResponse status (Some response)) ->
  error response = Some e ->
  code e = Some c ->
  kind_of_code c = Some k ->
  let err := parseApiError status response in
  err_statusCode err = kind_status k /\
  (forall status', err_statusCode (parseApiError status' response) = err_statusCode err) /\
  no_retry (ThrowError err) = true /\
  request this method path body w =
    (Throws (ThrowError err),
     after_fetch w (request_event this method (baseUrl this ++ path) body)).
Proof.
  intros method path body w status response e c k Hpos Hnet Hbody Hcode Hkind err.
  pose proof (recognized_status_fixed status response e c k Hbody Hcode Hkind) as Hst.
  fold err in Hst.
  assert (Hk : exists s, kind_status k = Some s /\ 400 <= s < 500).
  { seven_kinds (recognized_code_cases c k Hkind); cbn; eexists; split; try reflexivity; lia. }
  destruct Hk as [s [Hks Hrange]].
  assert (Hno : no_retry (ThrowError err) = true).
  { apply (no_retry_status err s).
    - apply parseApiError_status.
    - rewrite Hst. exact Hks.
    - lia.
    - lia. }
  split; [exact Hst | ]. split.
  { intros status'. rewrite Hst.
    apply (recognized_status_fixed status' response e c k Hbody Hcode Hkind). }
  split; [exact Hno | ].
  unfold request. destruct (maxRetries this) as [| n]; [lia | ].
  apply request_loop_rethrow; [ | exact Hno].
  unfold attempt_outcome. rewrite Hnet. reflexivity.
Qed.

End RequestClaims.

(** ** The polling loop of [waitForProcessing] *)

Section Polling.

Context {J : Type}.
Variable asFileInfo : J -> FileInfo.
Variable this : StorageBrain.
Variable fileId : string.
Variable signal : option AbortSignal.
Variables maxWaitMs pollIntervalMs : Z.

(** Past the deadline the loop is left and the file is fetched once more;
    the signal is not consulted. *)
Lemma poll_loop_deadline fuel startTime (w : World J) :
  maxWaitMs <= now w - startTime ->
  poll_loop asFileInfo this (S fuel) startTime fileId signal maxWaitMs
    pollIntervalMs w =
  getFile asFileInfo this fileId w.
Proof.
  intros H. cbn [poll_loop]. unfold bind at 1. unfold Date_now.
  destruct (Z.ltb_spec (now w - startTime) maxWaitMs) as [Hlt | _]; [lia | ].
  reflexivity.
Qed.

Hypothesis Hretries : (0 < maxRetries this)%nat.

(** A poll whose first attempt succeeds. *)
Lemma getFile_success (w : World J) json :
  attempt_outcome (net w (fetched w)) = Returns json ->
  getFile asFileInfo this fileId w =
  (Returns (asFileInfo json), after_fetch w (poll_event this fileId)).
Proof.
  intros H. unfold getFile, bind, request.
  destruct (maxRetries this) as [| n]; [lia | ].
  rewrite (request_loop_success this "GET" _ JUndefined n 0%nat None w json H).
  reflexivity.
Qed.

(** Before the deadline, a poll that finds the file still in progress is
    followed by a pause and by the next turn of the loop. *)
Lemma poll_loop_step fuel startTime (w : World J) json :
  now w - startTime < maxWaitMs ->
  aborted_at signal (now w) = false ->
  attempt_outcome (net w (fetched w)) = Returns json ->
  is_terminal (processingStatus (asFileInfo json)) = false ->
  poll_loop asFileInfo this (S fuel) startTime fileId signal maxWaitMs
    pollIntervalMs w =
  poll_loop asFileInfo this fuel startTime fileId signal maxWaitMs
    pollIntervalMs (after_poll this fileId pollIntervalMs w).
Proof.
  intros Hlt Hsig Hout Hterm. cbn [poll_loop]. unfold bind at 1. unfold Date_now.
  destruct (Z.ltb_spec (now w - startTime) maxWaitMs) as [_ | Hge]; [ | lia].
  unfold bind at 1. unfold signal_aborted. rewrite Hsig.
  unfold bind at 1. rewrite (getFile_success w json Hout), Hterm.
  reflexivity.
Qed.

Lemma after_poll_now (w : World J) :
  now (after_poll this fileId pollIntervalMs w) =
  now w + Z.of_N (latency (net w (fetched w))) + Z.max 0 pollIntervalMs.
Proof. reflexivity. Qed.

Lemma after_poll_fetched (w : World J) :
  fetched (after_poll this fileId pollIntervalMs w) = S (fetched w).
Proof. reflexivity. Qed.

Lemma after_poll_net (w : World J) :
  net (after_poll this fileId pollIntervalMs w) = net w.
Proof. reflexivity. Qed.

Hypothesis Hinterval : 0 < pollIntervalMs.
Hypothesis Hsignal : forall t, aborted_at signal t = false.

(** A file that stays in progress: the loop polls [n] times before the
    deadline, each time one interval or more after the last, and fetches
    the file once more when the deadline has passed. *)
Lemma poll_loop_never_terminal startTime (m : nat) :
  forall w : World J,
  (forall i, exists json,
     attempt_outcome (net w (fetched w + i)) = Returns json /\
     is_terminal (processingStatus (asFileInfo json)) = false) ->
  (Z.to_nat (maxWaitMs - (now w - startTime)) <= m)%nat ->
  exists (n : nat) json (wf : World J),
    (forall fuel, (m < fuel)%nat ->
       poll_loop asFileInfo this fuel startTime fileId signal maxWaitMs
         pollIntervalMs w =
       (Returns (asFileInfo json), after_fetch wf (poll_event this fileId))) /\
    attempt_outcome (net w (fetched w + n)) = Returns json /\
    net wf = net w /\
    fetched wf = (fetched w + n)%nat /\
    maxWaitMs <= now wf - startTime /\
    now w <= now wf /\
    (n = 0%nat \/
     now w - startTime + (Z.of_nat n - 1) * pollIntervalMs < maxWaitMs).
Proof.
  induction m as [| m IH]; intros w Hfiles Hm.
  - (* no time is left *)
    destruct (Hfiles 0%nat) as [json [Hout _]].
    exists 0%nat, json, w. rewrite Nat.add_0_r in *.
    repeat split; try lia; auto.
    intros [| fuel] Hfuel; [lia | ].
    rewrite poll_loop_deadline by lia.
    apply getFile_success. exact Hout.
  - destruct (Z.lt_ge_cases (now w - startTime) maxWaitMs) as [Hlt | Hge].
    + destruct (Hfiles 0%nat) as [json0 [Hout0 Hterm0]].
      rewrite Nat.add_0_r in Hout0.
      set (w2 := after_poll this fileId pollIntervalMs w).
      destruct (IH w2) as [n [json [wf [Hrun [Hlast [Hnet [Hf [Hdead [Hnow Hn]]]]]]]]].
      { intros i. subst w2. rewrite after_poll_net, after_poll_fetched.
        replace (S (fetched w) + i)%nat with (fetched w + S i)%nat by lia.
        apply Hfiles. }
      { subst w2. rewrite after_poll_now. lia. }
      exists (S n), json, wf.
      subst w2. rewrite after_poll_net, after_poll_fetched, after_poll_now in *.
      repeat split; try lia; auto.
      * intros [| fuel] Hfuel; [lia | ].
        rewrite (poll_loop_step fuel startTime w json0 Hlt (Hsignal _) Hout0 Hterm0).
        apply Hrun. lia.
      * replace (fetched w + S n)%nat with (S (fetched w) + n)%nat by lia.
        exact Hlast.
    + destruct (Hfiles 0%nat) as [json [Hout _]].
      exists 0%nat, json, w. rewrite Nat.add_0_r in *.
      repeat split; try lia; auto.
      intros [| fuel] Hfuel; [lia | ].
      rewrite poll_loop_deadline by lia.
      apply getFile_success. exact Hout.
Qed.

End Polling.

Section PollingClaims.

Context {J : Type}.
Variable asFileInfo : J -> FileInfo.
Variable this : StorageBrain.

(** C2. A file that is still in progress at every poll, polled by a client
    that is not cancelled: [waitForProcessing] returns, without throwing,
    the record of one last fetch, made when [maxWaitMs] or more have
    elapsed, although its state is not terminal.  Before it the loop made
    [n] fetches, all before the deadline and one interval or more apart, so
    [n + 1] fetches in all; with [maxWaitMs = 3000] and
    [pollIntervalMs = 1000] that is at most 4. *)
Theorem waitForProcessing_deadline_returns_record :
  forall fileId signal maxWaitMs pollIntervalMs (w : World J),
  (0 < maxRetries this)%nat ->
  0 < pollIntervalMs ->
  (forall t, aborted_at signal t = false) ->
  (forall i, exists json,
     attempt_outcome (net w (fetched w + i)) = Returns json /\
     is_terminal (processingStatus (asFileInfo json)) = false) ->
  exists (n : nat) json (wf : World J),
    (forall fuel, (Z.to_nat maxWaitMs < fuel)%nat ->
       waitForProcessing asFileInfo this fuel fileId signal maxWaitMs
         pollIntervalMs w =
       (Returns (asFileInfo json), after_fetch wf (poll_event this fileId))) /\
    attempt_outcome (net w (fetched w + n)) = Returns json /\
    is_terminal (processingStatus (asFileInfo json)) = false /\
    fetched wf = (fetched w + n)%nat /\
    fetched (after_fetch wf (poll_event this fileId)) = (fetched w + n + 1)%nat /\
    maxWaitMs <= now wf - now w /\
    (n = 0%nat \/ (Z.of_nat n - 1) * pollIntervalMs < maxWaitMs) /\
    (maxWaitMs = 3000 -> pollIntervalMs = 1000 -> (n + 1 <= 4)%nat).
Proof.
  intros fileId signal maxWaitMs pollIntervalMs w Hretries Hinterval Hsignal Hfiles.
  destruct (poll_loop_never_terminal asFileInfo this fileId signal
              maxWaitMs pollIntervalMs Hretries Hinterval Hsignal (now w)
              (Z.to_nat maxWaitMs) w Hfiles ltac:(lia))
    as [n [json [wf [Hrun [Hlast [Hnet [Hf [Hdead [Hnow Hn]]]]]]]]].
  exists n, json, wf.
  split; [ | split; [exact Hlast | split; [ | split; [exact Hf | split;
    [cbn; lia | split; [exact Hdead | split]]]]]].
  - intros fuel Hfuel. unfold waitForProcessing, bind, Date_now.
    apply Hrun. exact Hfuel.
  - destruct (Hfiles n) as [json' [Hout Hterm]].
    rewrite Hlast in Hout. injection Hout as <-. exact Hterm.
  - destruct Hn as [-> | Hn]; [left; reflexivity | right; lia].
  - intros -> ->. destruct Hn as [-> | Hn]; lia.
Qed.

(** C10. When the deadline has passed at the test of the loop,
    [waitForProcessing] goes on to fetch the file, whatever the state of the
    signal: the turn of the loop is exactly the call of [getFile], and a
    fetch that succeeds gives the record returned.  So when the signal is
    aborted during the last pause, after a poll that found the file in
    progress, and the deadline passes during that pause, the call makes one
    more fetch and returns its record instead of throwing. *)
Theorem deadline_reached_skips_cancellation_check :
  (forall fuel startTime fileId signal maxWaitMs pollIntervalMs (w : World J),
     maxWaitMs <= now w - startTime ->
     poll_loop asFileInfo this (S fuel) startTime fileId signal maxWaitMs
       pollIntervalMs w = getFile asFileInfo this fileId w /\
     (forall json, (0 < maxRetries this)%nat ->
        attempt_outcome (net w (fetched w)) = Returns json ->
        poll_loop asFileInfo this (S fuel) startTime fileId signal maxWaitMs
          pollIntervalMs w =
        (Returns (asFileInfo json), after_fetch w (poll_event this fileId)))) /\
  (forall fuel fileId s a maxWaitMs pollIntervalMs (w : World J) json0 json1,
     (0 < maxRetries this)%nat ->
     abortAt s = Some a ->
     0 < maxWaitMs ->
     attempt_outcome (net w (fetched w)) = Returns json0 ->
     is_terminal (processingStatus (asFileInfo json0)) = false ->
     attempt_outcome (net w (S (fetched w))) = Returns json1 ->
     let polled := now w + Z.of_N (latency (net w (fetched w))) in
     polled < a <= polled + Z.max 0 pollIntervalMs ->
     maxWaitMs <= polled + Z.max 0 pollIntervalMs - now w ->
     let r := waitForProcessing asFileInfo this (S (S fuel)) fileId (Some s)
                maxWaitMs pollIntervalMs w in
     aborted_at (Some s) (polled + Z.max 0 pollIntervalMs) = true /\
     fst r = Returns (asFileInfo json1) /\
     fetched (snd r) = (fetched w + 2)%nat).
Proof.
  split.
  - intros fuel startTime fileId signal maxWaitMs pollIntervalMs w Hdead.
    pose proof (poll_loop_deadline asFileInfo this fileId signal maxWaitMs
                  pollIntervalMs fuel startTime w Hdead) as Heq.
    split; [exact Heq | ].
    intros json Hretries Hout. rewrite Heq.
    apply getFile_success; assumption.
  - intros fuel fileId s a maxWaitMs pollIntervalMs w json0 json1
      Hretries Habort Hwait Hout0 Hterm0 Hout1 polled Ha Hdead r.
    assert (Hnot : aborted_at (Some s) (now w) = false).
    { cbn. rewrite Habort. apply Z.leb_gt.
      pose proof (N2Z.is_nonneg (latency (net w (fetched w)))). lia. }
    split.
    { cbn. rewrite Habort. apply Z.leb_le. lia. }
    assert (Hrun :
      waitForProcessing asFileInfo this (S (S fuel)) fileId (Some s) maxWaitMs
        pollIntervalMs w =
      (Returns (asFileInfo json1),
       after_fetch (after_poll this fileId pollIntervalMs w)
         (poll_event this fileId))).
    { unfold waitForProcessing, bind at 1, Date_now.
      rewrite (poll_loop_step asFileInfo this fileId (Some s) maxWaitMs
                 pollIntervalMs Hretries (S fuel) (now w) w json0 ltac:(lia)
                 Hnot Hout0 Hterm0).
      rewrite (poll_loop_deadline asFileInfo this fileId (Some s) maxWaitMs
                 pollIntervalMs fuel (now w)
                 (after_poll this fileId pollIntervalMs w)).
      2:{ rewrite after_poll_now. subst polled. lia. }
      apply getFile_success; [exact Hretries | ].
      rewrite after_poll_net, after_poll_fetched. exact Hout1. }
    subst r. rewrite Hrun. cbn [fst snd after_fetch fetched].
    rewrite after_poll_fetched. split; [reflexivity | lia].
Qed.

End PollingClaims.

(** ** The byte transfer *)

Section Transfer.

Context {J : Type}.
Variable this : StorageBrain.
Variable signal : option AbortSignal.
Variable registeredAt : Z.
Variable onProgress : option (Z -> M J unit).

Lemma on_progress_event_reports :
  (forall callback, onProgress = Some callback -> reporter callback) ->
  forall event (w : World J),
  exists evs,
    on_progress_event onProgress event w =
    (Returns tt,
     mkWorld (now w) (net w) (fetched w) (xhr w) (sent w) (trace w ++ evs)).
Proof.
  intros Hreporter event w.
  unfold on_progress_event. destruct onProgress as [callback |].
  - destruct (lengthComputable event).
    + apply (Hreporter callback eq_refl).
    + exists []. rewrite app_nil_r. destruct w; reflexivity.
  - exists []. rewrite app_nil_r. destruct w; reflexivity.
Qed.

(** Whatever happens to the transfer, it only moves the clock and adds to
    the trace. *)
Lemma xhr_run_trace :
  (forall callback, onProgress = Some callback -> reporter callback) ->
  forall progress endDelay ending (w : World J),
  exists o t evs,
    xhr_run signal registeredAt onProgress progress endDelay ending w =
    (o, mkWorld t (net w) (fetched w) (xhr w) (sent w) (trace w ++ evs)).
Proof.
  intros Hreporter progress endDelay ending.
  induction progress as [| [delay event] rest IH]; intros w.
  - cbn [xhr_run]. unfold bind, await_event.
    destruct (abort_between signal registeredAt _).
    + do 2 eexists. exists []. rewrite app_nil_r. reflexivity.
    + destruct ending as [status |]; cbn; [destruct (_ && _) | ];
        do 2 eexists; exists []; rewrite app_nil_r; reflexivity.
  - cbn [xhr_run]. unfold bind at 1. unfold await_event.
    destruct (abort_between signal registeredAt _).
    + do 2 eexists. exists []. rewrite app_nil_r. reflexivity.
    + unfold bind at 1.
      destruct (on_progress_event_reports Hreporter event
                  (set_now (now w + Z.of_N delay) w)) as [evs Hev].
      rewrite Hev.
      destruct (IH (mkWorld (now w + Z.of_N delay) (net w) (fetched w) (xhr w)
                      (sent w) (trace w ++ evs))) as [o [t [evs' Hrun]]].
      cbn [set_now now net fetched xhr sent trace] in *.
      rewrite Hrun. exists o, t, (evs ++ evs')%list.
      rewrite app_assoc. reflexivity.
Qed.

(** A signal that aborts while the transfer is in flight: the [abort]
    listener rejects with the cancellation error at that instant. *)
Lemma xhr_run_cancelled :
  (forall callback, onProgress = Some callback -> reporter callback) ->
  forall s a progress endDelay ending,
  signal = Some s ->
  abortAt s = Some a ->
  registeredAt < a ->
  forall w : World J,
  now w <= a < now w + transfer_duration progress endDelay ->
  exists w',
    xhr_run signal registeredAt onProgress progress endDelay ending w =
    (Throws (ThrowError (UploadError "Upload was cancelled" None)), w') /\
    now w' = a.
Proof.
  intros Hreporter s a progress endDelay ending Hs Ha Hreg.
  assert (Hab : forall t, abort_between signal registeredAt t =
                          if a <? t then Some a else None).
  { intros t. unfold abort_between. rewrite Hs, Ha.
    destruct (Z.ltb_spec registeredAt a); [reflexivity | lia]. }
  induction progress as [| [delay event] rest IH]; intros w Hw;
    cbn [transfer_duration] in Hw.
  - cbn [xhr_run]. unfold bind, await_event. rewrite Hab.
    destruct (Z.ltb_spec a (now w + Z.of_N endDelay)); [ | lia].
    eexists. split; [reflexivity | ]. cbn. lia.
  - cbn [xhr_run]. unfold bind at 1. unfold await_event. rewrite Hab.
    destruct (Z.ltb_spec a (now w + Z.of_N delay)) as [Hlt | Hge].
    + eexists. split; [reflexivity | ]. cbn. lia.
    + unfold bind at 1.
      destruct (on_progress_event_reports Hreporter event
                  (set_now (now w + Z.of_N delay) w)) as [evs Hev].
      rewrite Hev. apply IH. cbn. lia.
Qed.

(** A signal that was aborted before the listener was registered is not
    heard: its [abort] event was dispatched already, and the transfer runs
    as it does without a signal. *)
Lemma xhr_run_aborted_before s a progress endDelay ending :
  abortAt s = Some a ->
  a <= registeredAt ->
  forall w : World J,
  xhr_run (Some s) registeredAt onProgress progress endDelay ending w =
  xhr_run None registeredAt onProgress progress endDelay ending w.
Proof.
  intros Ha Hle.
  assert (Hab : forall t, abort_between (Some s) registeredAt t = None).
  { intros t. unfold abort_between. rewrite Ha.
    destruct (Z.ltb_spec registeredAt a); [lia | reflexivity]. }
  induction progress as [| [delay event] rest IH]; intros w; cbn [xhr_run].
  - unfold bind, await_event. rewrite Hab. reflexivity.
  - unfold bind at 1 3. unfold await_event. rewrite Hab. cbn [abort_between].
    unfold bind at 1 2.
    destruct (on_progress_event onProgress event _) as [[[] | t |] w1];
      [apply IH | reflexivity | reflexivity].
Qed.

End Transfer.

Section TransferClaims.

Context {J : Type}.
Variable this : StorageBrain.

(** Once the request is sent, [uploadToPresignedUrl] ends as the events of
    the request make it end: what the listeners reject with is an error of
    the SDK, which the [catch] block rethrows. *)
Lemma uploadToPresignedUrl_sent presignedUrl file contentType onProgress signal
    (w : World J) progress endDelay ending :
  xhr w (sent w) = XhrRuns progress endDelay ending ->
  let sent_world :=
    after_send w (EvXhr "PUT" (transfer_url this presignedUrl)
                    (transfer_headers this presignedUrl contentType) file) in
  let run := xhr_run signal (now w) onProgress progress endDelay ending sent_world in
  snd (uploadToPresignedUrl this presignedUrl file contentType onProgress signal w)
    = snd run /\
  (forall e, fst run = Throws (ThrowError e) ->
     instanceof_StorageBrainError e = true ->
     fst (uploadToPresignedUrl this presignedUrl file contentType onProgress signal w)
       = fst run) /\
  (fst run = Returns tt <->
   fst (uploadToPresignedUrl this presignedUrl file contentType onProgress signal w)
     = Returns tt).
Proof.
  intros Hscript sent_world run.
  unfold uploadToPresignedUrl, try_catch, bind, Date_now, xhr_send.
  rewrite Hscript. cbn [fst snd].
  fold (transfer_url this presignedUrl).
  fold (transfer_headers this presignedUrl contentType).
  unfold log. cbn [now net fetched xhr sent trace].
  change (mkWorld (now w) (net w) (fetched w) (xhr w) (S (sent w))
            (trace w ++ [EvXhr "PUT" (transfer_url this presignedUrl)
                           (transfer_headers this presignedUrl contentType) file]))
    with sent_world.
  fold run.
  destruct run as [[[] | [e | v] |] w'] eqn:Hrun; cbn [fst snd].
  - repeat split; auto; discriminate.
  - destruct (instanceof_StorageBrainError e) eqn:Hi; cbn; repeat split; auto;
      try discriminate; intros e' [= <-]; congruence.
  - cbn. repeat split; auto; discriminate.
  - repeat split; auto; discriminate.
Qed.

(** A signal aborted before the transfer starts does not cancel it. *)
Lemma uploadToPresignedUrl_aborted_before presignedUrl file contentType
    onProgress s a (w : World J) :
  abortAt s = Some a ->
  a <= now w ->
  uploadToPresignedUrl this presignedUrl file contentType onProgress (Some s) w =
  uploadToPresignedUrl this presignedUrl file contentType onProgress None w.
Proof.
  intros Ha Hle.
  unfold uploadToPresignedUrl, try_catch, bind, Date_now, xhr_send.
  destruct (xhr w (sent w)) as [t | progress endDelay ending]; [reflexivity | ].
  cbn [fst snd].
  rewrite (xhr_run_aborted_before (now w) onProgress s a progress endDelay
             ending Ha Hle).
  reflexivity.
Qed.

(** C6. The transfer opens its request on the destination it was given:
    when the destination begins with "/", on the base address followed by
    it, with the header "Authorization: Bearer <apiKey>"; otherwise on the
    destination as it is, with no Authorization header.  The request is the
    next entry of the trace and the only transfer started. *)
Theorem transfer_destination_and_credentials :
  forall presignedUrl file contentType onProgress signal (w : World J)
         progress endDelay ending,
  (forall callback, onProgress = Some callback -> reporter callback) ->
  xhr w (sent w) = XhrRuns progress endDelay ending ->
  let w' := snd (uploadToPresignedUrl this presignedUrl file contentType
                   onProgress signal w) in
  exists url headers evs,
    trace w' = (trace w ++ EvXhr "PUT" url headers file :: evs)%list /\
    sent w' = S (sent w) /\
    In ("Content-Type", contentType) headers /\
    (prefix "/" presignedUrl = true ->
       url = baseUrl this ++ presignedUrl /\
       In ("Authorization", "Bearer " ++ apiKey this) headers) /\
    (prefix "/" presignedUrl = false ->
       url = presignedUrl /\
       forall value, ~ In ("Authorization", value) headers).
Proof.
  intros presignedUrl file contentType onProgress signal w progress endDelay
    ending Hreporter Hscript w'.
  destruct (uploadToPresignedUrl_sent presignedUrl file contentType onProgress
              signal w progress endDelay ending Hscript) as [Hw _].
  subst w'. rewrite Hw.
  destruct (xhr_run_trace signal (now w) onProgress Hreporter progress endDelay
              ending
              (after_send w (EvXhr "PUT" (transfer_url this presignedUrl)
                               (transfer_headers this presignedUrl contentType)
                               file))) as [o [t [evs Hrun]]].
  rewrite Hrun. cbn [snd trace sent after_send].
  exists (transfer_url this presignedUrl),
         (transfer_headers this presignedUrl contentType), evs.
  split; [rewrite <- app_assoc; reflexivity | ].
  split; [reflexivity | ].
  unfold transfer_url, transfer_headers.
  split; [left; reflexivity | ].
  split; intros Hp; rewrite Hp.
  - split; [reflexivity | right; left; reflexivity].
  - split; [reflexivity | ].
    intros value [Hin | []]. discriminate Hin.
Qed.

(** C5, as the code has it.  A signal that aborts while the transfer is in
    flight (after the request was sent, before its last event) aborts it:
    [uploadToPresignedUrl] throws at that instant an Upload error whose
    message is "Upload was cancelled".  A response outside 2xx makes the
    [load] listener reject with an Upload error too; the two failures have
    the same kind and differ by their message. *)
Theorem cancelled_transfer_throws_upload_error :
  forall presignedUrl file contentType onProgress s a (w : World J)
         progress endDelay ending,
  (forall callback, onProgress = Some callback -> reporter callback) ->
  abortAt s = Some a ->
  xhr w (sent w) = XhrRuns progress endDelay ending ->
  now w < a < now w + transfer_duration progress endDelay ->
  let cancelled := UploadError "Upload was cancelled" None in
  (exists w',
     uploadToPresignedUrl this presignedUrl file contentType onProgress
       (Some s) w = (Throws (ThrowError cancelled), w') /\
     now w' = a) /\
  kind_of cancelled = Some Upload /\
  (forall status (w0 : World J),
     (200 <=? status) && (status <? 300) = false ->
     let failure :=
       UploadError ("Upload failed with status " ++ string_of_Z status) None in
     on_end (XLoad status) w0 = (Throws (ThrowError failure), w0) /\
     kind_of failure = kind_of cancelled /\
     err_name failure = err_name cancelled /\
     err_code failure = err_code cancelled /\
     err_message failure <> err_message cancelled).
Proof.
  intros presignedUrl file contentType onProgress s a w progress endDelay
    ending Hreporter Habort Hscript Ha cancelled.
  split; [ | split; [reflexivity | ]].
  - destruct (uploadToPresignedUrl_sent presignedUrl file contentType onProgress
                (Some s) w progress endDelay ending Hscript) as [Hw [Hthrow _]].
    destruct (xhr_run_cancelled (Some s) (now w) onProgress Hreporter s a
                progress endDelay ending eq_refl Habort ltac:(lia)
                (after_send w (EvXhr "PUT" (transfer_url this presignedUrl)
                                 (transfer_headers this presignedUrl contentType)
                                 file)) ltac:(cbn; lia)) as [w' [Hrun Hnow]].
    exists w'. split; [ | exact Hnow].
    rewrite Hrun in Hw, Hthrow. cbn [fst snd] in Hw, Hthrow.
    specialize (Hthrow cancelled eq_refl eq_refl).
    destruct (uploadToPresignedUrl this presignedUrl file contentType
                onProgress (Some s) w) as [o w''].
    cbn [fst snd] in Hw, Hthrow. subst o w''. reflexivity.
  - intros status w0 Hstatus failure. unfold on_end. rewrite Hstatus.
    repeat split. cbn. discriminate.
Qed.

End TransferClaims.

(** ** The upload *)

Section Quiet.

Context {J : Type}.
Variable this : StorageBrain.

Lemma progress_values_app (l l' : list Event) :
  progress_values (l ++ l') = (progress_values l ++ progress_values l')%list.
Proof.
  induction l as [| ev l IH]; [reflexivity | ].
  destruct ev; cbn; rewrite IH; reflexivity.
Qed.

Lemma quiet_refl (w : World J) : quiet w w.
Proof. repeat split. Qed.

Lemma quiet_trans (w1 w2 w3 : World J) : quiet w1 w2 -> quiet w2 w3 -> quiet w1 w3.
Proof.
  intros [H1 [H2 H3]] [H4 [H5 H6]]. repeat split; congruence.
Qed.

Lemma quiet_after_fetch (w : World J) method url headers body :
  quiet w (after_fetch w (EvFetch method url headers body)).
Proof.
  repeat split. cbn. rewrite progress_values_app. cbn. apply app_nil_r.
Qed.

Lemma quiet_sleep (w : World J) ms : quiet w (snd (sleep ms w)).
Proof.
  repeat split. cbn. rewrite progress_values_app. cbn. apply app_nil_r.
Qed.

Lemma quiet_after_backoff (w : World J) attempt :
  quiet w (after_backoff this attempt w).
Proof.
  unfold after_backoff. destruct (_ <? _); [apply quiet_sleep | apply quiet_refl].
Qed.

Lemma quiet_after_request (w : World J) method url body :
  quiet w (after_fetch w (request_event this method url body)).
Proof. apply quiet_after_fetch. Qed.

(** [request] starts no transfer and reports nothing, however it ends. *)
Lemma request_loop_quiet method url body remaining :
  forall attempt lastError (w : World J),
  quiet w (snd (request_loop this remaining attempt lastError method url body w)).
Proof.
  induction remaining as [| r IH]; intros attempt lastError w.
  - apply quiet_refl.
  - destruct (attempt_outcome (net w (fetched w))) as [json | t |] eqn:Hout.
    + rewrite (request_loop_success this method url body r attempt lastError w json Hout).
      apply quiet_after_request.
    + destruct (no_retry t) eqn:Hno.
      * rewrite (request_loop_rethrow this method url body r attempt lastError w t Hout Hno).
        apply quiet_after_request.
      * rewrite (request_loop_retry this method url body r attempt lastError w t Hout Hno).
        eapply quiet_trans; [ | apply IH].
        eapply quiet_trans; [apply quiet_after_request | apply quiet_after_backoff].
    + unfold attempt_outcome in Hout.
      destruct (settles (net w (fetched w))) as [t | [[t | json] | status errorBody]];
        discriminate Hout.
Qed.

Lemma request_quiet method path body (w : World J) :
  quiet w (snd (request this method path body w)).
Proof. apply request_loop_quiet. Qed.

Variable asFileInfo : J -> FileInfo.




End Quiet.

Section Upload.

Context {J : Type}.
Variable asUploadHandshake : J -> UploadHandshake.
Variable asFileInfo : J -> FileInfo.
Variable this : StorageBrain.





Variable options : UploadOptions.
Hypothesis Hcallback : onProgress options = true.




End Upload.

Section UploadClaims.

Context {J : Type}.
Variable asUploadHandshake : J -> UploadHandshake.
Variable asFileInfo : J -> FileInfo.
Variable this : StorageBrain.


(** C8. A payload whose declared media type is not one of the allowed
    types: [upload] throws an InvalidFileType error and leaves the world as
    it was; no request for a slot, no transfer and no poll was made, and
    nothing was reported. *)
Theorem upload_rejects_type_before_network :
  forall fuel file options (w : World J),
  ~ In (file_type file) ALLOWED_MIME_TYPES ->
  let err := InvalidFileTypeError (JStr (file_type file))
               (JArr (map JStr ALLOWED_MIME_TYPES)) in
  upload asUploadHandshake asFileInfo this fuel file options w
    = (Throws (ThrowError err), w) /\
  kind_of err = Some InvalidFileType.
Proof.
  intros fuel file options w Hnot err.
  split; [ | reflexivity].
  unfold upload.
  destruct (existsb (String.eqb (file_type file)) ALLOWED_MIME_TYPES) eqn:Hex.
  - exfalso. apply Hnot. apply existsb_exists in Hex.
    destruct Hex as [x [Hin Heq]]. apply String.eqb_eq in Heq. subst x. exact Hin.
  - reflexivity.
Qed.

End UploadClaims.

(** ** The properties on sample runs *)

Import Samples.

(** C1 on a 404 body with the code NOT_FOUND and no details. *)
Lemma parseApiError_kind_and_details_witness :
  kind_of (parseApiError 404 (coded "NOT_FOUND" None)) = Some FileNotFound /\
  opt_prop (err_details (parseApiError 404 (coded "NOT_FOUND" None))) "fileId"
    = JStr "unknown".
Proof.
  pose proof (parseApiError_kind_and_details 404 (coded "NOT_FOUND" None)
                (mkApiError (Some "NOT_FOUND") None None) "NOT_FOUND"
                FileNotFound eq_refl eq_refl eq_refl) as H.
  cbv zeta in H. destruct H as [H1 [_ [_ [_ H5]]]].
  split; [exact H1 | apply H5; reflexivity].
Defined.

(** C2 on a file that stays in [processing], with a deadline of 3000 ms and
    polls 1000 ms apart. *)
Lemma waitForProcessing_deadline_returns_record_witness :
  exists n : nat,
    (n + 1 <= 4)%nat /\
    fst (waitForProcessing snd client 3001 "f1" None 3000 1000
           (start stuck three_steps)) = Returns (record processing) /\
    fetched (snd (waitForProcessing snd client 3001 "f1" None 3000 1000
                    (start stuck three_steps))) = (n + 1)%nat.
Proof.
  destruct (waitForProcessing_deadline_returns_record snd client "f1" None
              3000 1000 (start stuck three_steps))
    as [n [j [wf [Hrun [Hlast [_ [_ [Hf [_ [_ Hfour]]]]]]]]]].
  - cbn. lia.
  - lia.
  - intros t. reflexivity.
  - intros i. exists (json "" processing). split; reflexivity.
  - exists n. split; [apply Hfour; reflexivity | ].
    rewrite (Hrun 3001%nat) by lia.
    cbn in Hlast. injection Hlast as <-.
    split; [reflexivity | exact Hf].
Defined.




(** C5, as the code has it, on a signal that aborts 15 ms into a transfer of
    35 ms. *)
Lemma cancelled_transfer_throws_upload_error_witness :
  let r := uploadToPresignedUrl client "/api/v1/upload/f1" png "image/png" None
             (Some (mkSignal (Some 15))) (start smooth three_steps) in
  fst r = Throws (ThrowError (UploadError "Upload was cancelled" None)) /\
  now (snd r) = 15.
Proof.
  intros r.
  destruct (cancelled_transfer_throws_upload_error client "/api/v1/upload/f1"
              png "image/png" None (mkSignal (Some 15)) 15
              (start smooth three_steps)
              [(10%N, mkProgressEvent true 0 2048);
               (10%N, mkProgressEvent true 1024 2048);
               (10%N, mkProgressEvent true 2048 2048)] 5%N (XLoad 200))
    as [[w' [Hrun Hnow]] _].
  - intros callback H. discriminate H.
  - reflexivity.
  - reflexivity.
  - cbn. lia.
  - subst r. rewrite Hrun. split; [reflexivity | exact Hnow].
Defined.

(** C5 as stated fails: the failure of a cancelled transfer and the failure
    of a transfer answered with 500 have the same kind, name, code and
    status. *)
Lemma cancellation_has_the_kind_of_a_rejected_transfer :
  exists cancelled failure,
    fst (uploadToPresignedUrl client "/api/v1/upload/f1" png "image/png" None
           (Some (mkSignal (Some 15))) (start smooth three_steps))
      = Throws (ThrowError cancelled) /\
    fst (uploadToPresignedUrl client "/api/v1/upload/f1" png "image/png" None
           None (start smooth rejected_transfer))
      = Throws (ThrowError failure) /\
    kind_of cancelled = kind_of failure /\
    err_name cancelled = err_name failure /\
    err_code cancelled = err_code failure /\
    err_statusCode cancelled = err_statusCode failure.
Proof.
  do 2 eexists. vm_compute. repeat split.
Qed.

(** C6 on a destination of the service. *)
Lemma transfer_destination_and_credentials_witness :
  exists url headers evs,
    trace (snd (uploadToPresignedUrl client "/api/v1/upload/f1" png "image/png"
                  None None (start smooth three_steps)))
      = EvXhr "PUT" url headers png :: evs /\
    url = "https://api.example/api/v1/upload/f1" /\
    In ("Authorization", "Bearer sk_test_1") headers.
Proof.
  destruct (transfer_destination_and_credentials client "/api/v1/upload/f1"
              png "image/png" None None (start smooth three_steps)
              [(10%N, mkProgressEvent true 0 2048);
               (10%N, mkProgressEvent true 1024 2048);
               (10%N, mkProgressEvent true 2048 2048)] 5%N (XLoad 200))
    as [url [headers [evs [Htrace [_ [_ [Hrelative _]]]]]]].
  - intros callback H. discriminate H.
  - reflexivity.
  - destruct (Hrelative eq_refl) as [Hurl Hauth].
    exists url, headers, evs. split; [exact Htrace | ].
    split; [exact Hurl | exact Hauth].
Defined.


(** C8 on a text file. *)
Lemma upload_rejects_type_before_network_witness :
  let w := start smooth three_steps in
  upload fst snd client 61 text (with_progress None) w
    = (Throws (ThrowError
         (InvalidFileTypeError (JStr "text/plain")
            (JArr (map JStr ALLOWED_MIME_TYPES)))), w).
Proof.
  intros w.
  apply (upload_rejects_type_before_network fst snd client 61 text
           (with_progress None) w).
  cbn. intros H.
  repeat (destruct H as [H | H]; [discriminate H | ]). exact H.
Defined.

(** C9 on a response with status 503 and the code UNAUTHORIZED. *)
Lemma recognized_code_status_and_no_retry_witness :
  let w := start (fun _ => fails 503 (Some (coded "UNAUTHORIZED" None))) three_steps in
  err_statusCode (parseApiError 503 (coded "UNAUTHORIZED" None)) = Some 401 /\
  fst (request client "GET" "/x" JUndefined w)
    = Throws (ThrowError (AuthenticationError None)) /\
  fetched (snd (request client "GET" "/x" JUndefined w)) = 1%nat.
Proof.
  intros w.
  destruct (recognized_code_status_and_no_retry client "GET" "/x" JUndefined w
              503 (coded "UNAUTHORIZED" None)
              (mkApiError (Some "UNAUTHORIZED") None None) "UNAUTHORIZED"
              Authentication)
    as [Hstatus [_ [_ Hrun]]].
  - cbn. lia.
  - reflexivity.
  - reflexivity.
  - reflexivity.
  - reflexivity.
  - split; [exact Hstatus | ]. rewrite Hrun. split; reflexivity.
Defined.

(** C10 on a signal that is aborted 500 ms into the only pause of a wait of
    1000 ms, and on a loop entered past its deadline with an aborted signal. *)
Lemma deadline_reached_skips_cancellation_check_witness :
  let w := start stuck three_steps in
  let aborted := Some (mkSignal (Some (-5))) in
  poll_loop snd client 1 0 "f1" aborted 0 1000 w = getFile snd client "f1" w /\
  fst (waitForProcessing snd client 2 "f1" (Some (mkSignal (Some 500)))
         1000 1000 w) = Returns (record processing) /\
  fetched (snd (waitForProcessing snd client 2 "f1" (Some (mkSignal (Some 500)))
                  1000 1000 w)) = 2%nat.
Proof.
  intros w aborted.
  destruct (@deadline_reached_skips_cancellation_check Json snd client)
    as [Hdeadline Hpause].
  split.
  - destruct (Hdeadline 0%nat 0 "f1" aborted 0 1000 w) as [H _];
      [cbn; lia | exact H].
  - destruct (Hpause 0%nat "f1" (mkSignal (Some 500)) 500 1000 1000 w
                (json "" processing) (json "" processing))
      as [_ [H1 H2]].
    + cbn. lia.
    + reflexivity.
    + lia.
    + reflexivity.
    + reflexivity.
    + reflexivity.
    + cbn. lia.
    + cbn. lia.
    + split; [exact H1 | exact H2].
Defined.

(** * Further properties *)

Import Observations.

(** ** Classification of the other bodies *)



(** X2. For the codes INVALID_FILE_TYPE, FILE_TOO_LARGE, FILE_NOT_FOUND and
    NOT_FOUND the message of the server and the status of the response are
    not used: the error is built from the details alone. *)
Theorem server_message_discarded (c : string) (k : ErrorKind)
    (d : option JsObject) (m m' : option string) (s s' : Z) :
  kind_of_code c = Some k ->
  k = InvalidFileType \/ k = FileTooLarge \/ k = FileNotFound ->
  parseApiError s (error_body c m d) = parseApiError s' (error_body c m' d).
Proof.
  intros Hkind Hk.
  rewrite (parseApiError_recognized s (error_body c m d)
             (mkApiError (Some c) m d) c k eq_refl eq_refl Hkind).
  rewrite (parseApiError_recognized s' (error_body c m' d)
             (mkApiError (Some c) m' d) c k eq_refl eq_refl Hkind).
  destruct Hk as [-> | [-> | ->]]; reflexivity.
Qed.

(** X3. Details that are missing print as the word "undefined" in the
    message of an InvalidFileType or FileTooLarge error, and the message of
    a FileNotFound error names the id "unknown". *)
Theorem messages_without_details (s : Z) (m : option string) (d : option JsObject) :
  (opt_prop d "fileType" = JUndefined ->
   err_message (parseApiError s (error_body "INVALID_FILE_TYPE" m d))
     = "File type 'undefined' is not allowed") /\
  (opt_prop d "fileSize" = JUndefined -> opt_prop d "maxSize" = JUndefined ->
   err_message (parseApiError s (error_body "FILE_TOO_LARGE" m d))
     = "File size undefined bytes exceeds maximum of undefined bytes") /\
  (nullish (opt_prop d "fileId") = true ->
   err_message (parseApiError s (error_body "FILE_NOT_FOUND" m d))
     = "File not found: unknown" /\
   err_message (parseApiError s (error_body "NOT_FOUND" m d))
     = "File not found: unknown").
Proof.
  split; [ | split].
  - intros H. cbn. rewrite H. reflexivity.
  - intros H1 H2. cbn. rewrite H1, H2. reflexivity.
  - intros H. cbn. unfold coalesce. rewrite H. split; reflexivity.
Qed.

(** ** The constructor *)

Lemma strip_trailing_slash_app (b : string) :
  strip_trailing_slash (b ++ "/") = b.
Proof.
  induction b as [| c b IH]; [reflexivity | ].
  cbn [append strip_trailing_slash].
  destruct (b ++ "/") as [| c' rest] eqn:Hb.
  - destruct b; discriminate Hb.
  - rewrite IH. reflexivity.
Qed.

Lemma strip_trailing_slash_at_most_one (s : string) :
  s = strip_trailing_slash s \/ s = strip_trailing_slash s ++ "/".
Proof.
  induction s as [| c s IH]; [left; reflexivity | ].
  destruct s as [| c' rest].
  - cbn. destruct (Ascii.eqb_spec c "/"); [right; subst c | left]; reflexivity.
  - change (strip_trailing_slash (String c (String c' rest)))
      with (String c (strip_trailing_slash (String c' rest))).
    destruct IH as [IH | IH]; [left | right]; cbn [append]; f_equal; exact IH.
Qed.

(** X4. The constructor refuses an empty key with a configuration error,
    before anything else.  With a key it keeps the key, takes 30000 ms and 3
    attempts when the configuration gives none (a configured count of 0 is
    kept), takes the production address when none is given, and removes one
    trailing slash from the base address, and no more than one. *)
Theorem new_StorageBrain_normalizes (config : StorageBrainConfig) :
  (Types.apiKey config = "" ->
   exists e, new_StorageBrain config = inl e /\
             kind_of e = Some Configuration /\
             err_message e = "API key is required" /\
             err_statusCode e = None) /\
  (Types.apiKey config <> "" ->
   exists client,
     new_StorageBrain config = inr client /\
     apiKey client = Types.apiKey config /\
     timeout client = or_default (Types.timeout config) 30000 /\
     maxRetries client = or_default (Types.maxRetries config) 3%nat /\
     (Types.baseUrl config = None -> baseUrl client = DEFAULT_BASE_URL) /\
     (forall b, Types.baseUrl config = Some (b ++ "/") -> baseUrl client = b) /\
     (forall b, Types.baseUrl config = Some b ->
        b = baseUrl client \/ b = baseUrl client ++ "/")).
Proof.
  unfold new_StorageBrain. split; intros Hkey.
  - rewrite Hkey. cbn. eexists. repeat split.
  - destruct (String.eqb_spec (Types.apiKey config) "") as [Heq | _];
      [contradiction | ].
    eexists. split; [reflexivity | ]. cbn.
    split; [reflexivity | ]. split; [reflexivity | ]. split; [reflexivity | ].
    split; [ | split].
    + intros ->. reflexivity.
    + intros b ->. cbn. apply strip_trailing_slash_app.
    + intros b ->. cbn. apply strip_trailing_slash_at_most_one.
Qed.

(** ** More on the retry loop *)

Section Schedule.

Context {J : Type}.
Variable this : StorageBrain.
Variables method url : string.
Variable body : JsVal.

Lemma sleep_values_app (l l' : list Event) :
  sleep_values (l ++ l') = (sleep_values l ++ sleep_values l')%list.
Proof.
  induction l as [| ev l IH]; [reflexivity | ].
  destruct ev; cbn; rewrite IH; reflexivity.
Qed.

Lemma backoff_delay_range (n : nat) : 1000 <= backoff_delay n <= 10000.
Proof.
  unfold backoff_delay, RETRY_CONFIG.initialDelayMs, RETRY_CONFIG.maxDelayMs,
    RETRY_CONFIG.backoffMultiplier.
  pose proof (Z.pow_pos_nonneg 2 (Z.of_nat n) ltac:(lia) ltac:(lia)).
  lia.
Qed.

(** [k] attempts in a row that fail and are retried, none of them the last
    one allowed: each is followed by its pause, and the loop goes on. *)
Lemma request_loop_retries (k : nat) :
  forall remaining attempt lastError (w : World J),
  (attempt + k < maxRetries this)%nat ->
  (forall i, (i < k)%nat ->
     exists t, attempt_outcome (net w (fetched w + i)) = Throws t /\
               no_retry t = false) ->
  exists (w' : World J) last,
    request_loop this (k + remaining) attempt lastError method url body w =
    request_loop this remaining (attempt + k) last method url body w' /\
    fetched w' = (fetched w + k)%nat /\
    net w' = net w /\
    now w' = now w + retry_elapsed (net w) (fetched w) attempt k /\
    sleep_values (trace w') =
      (sleep_values (trace w) ++ map backoff_delay (seq attempt k))%list.
Proof.
  induction k as [| k IH]; intros remaining attempt lastError w Hlt Hall.
  - exists w, lastError. rewrite !Nat.add_0_r, app_nil_r. cbn.
    repeat split; lia.
  - destruct (Hall 0%nat) as [t [Ht Hno]]; [lia | ].
    rewrite Nat.add_0_r in Ht.
    cbn [Nat.add].
    rewrite (request_loop_retry this method url body _ attempt lastError w t Ht Hno).
    unfold after_backoff.
    destruct (Z.ltb_spec (Z.of_nat attempt) (Z.of_nat (maxRetries this) - 1))
      as [_ | Hge]; [ | lia].
    set (w1 := snd (sleep (backoff_delay attempt)
                      (after_fetch w (request_event this method url body)))).
    destruct (IH remaining (S attempt) (Some (as_Error t)) w1)
      as [w' [last [Hrun [Hf [Hnet [Hnow Hsleep]]]]]].
    { lia. }
    { intros i Hi. subst w1. cbn [sleep snd set_now log net fetched after_fetch].
      replace (S (fetched w) + i)%nat with (fetched w + S i)%nat by lia.
      apply Hall. lia. }
    exists w', last.
    replace (attempt + S k)%nat with (S attempt + k)%nat by lia.
    split; [exact Hrun | ].
    subst w1. cbn [sleep snd set_now log net fetched now trace after_fetch] in *.
    split; [lia | ]. split; [exact Hnet | ]. split.
    + rewrite Hnow. cbn [retry_elapsed].
      pose proof (backoff_delay_range attempt). lia.
    + rewrite Hsleep, !sleep_values_app. cbn.
      rewrite app_nil_r, <- app_assoc. reflexivity.
Qed.

(** Whatever the network does, [request] adds to the trace only the call it
    repeats and pauses, and calls [fetch] once per turn of the loop. *)
Lemma request_loop_events remaining :
  forall attempt lastError (w : World J),
  exists evs (n : nat),
    trace (snd (request_loop this remaining attempt lastError method url body w))
      = (trace w ++ evs)%list /\
    Forall (request_or_pause (request_event this method url body)) evs /\
    fetched (snd (request_loop this remaining attempt lastError method url body w))
      = (fetched w + n)%nat /\
    (n <= remaining)%nat /\
    (remaining <> 0%nat -> n <> 0%nat).
Proof.
  induction remaining as [| r IH]; intros attempt lastError w.
  - exists [], 0%nat. cbn. rewrite app_nil_r. repeat split; auto; lia.
  - destruct (attempt_outcome (net w (fetched w))) as [json | t |] eqn:Hout.
    + rewrite (request_loop_success this method url body r attempt lastError w json Hout).
      exists [request_event this method url body], 1%nat. cbn.
      repeat split; try lia. constructor; [left; reflexivity | constructor].
    + destruct (no_retry t) eqn:Hno.
      * rewrite (request_loop_rethrow this method url body r attempt lastError w t Hout Hno).
        exists [request_event this method url body], 1%nat. cbn.
        repeat split; try lia. constructor; [left; reflexivity | constructor].
      * rewrite (request_loop_retry this method url body r attempt lastError w t Hout Hno).
        set (w1 := after_backoff this attempt _).
        destruct (IH (S attempt) (Some (as_Error t)) w1)
          as [evs [n [Htrace [Hall [Hf [Hn _]]]]]].
        assert (Hw1 : exists pause,
                  trace w1 = (trace w ++ request_event this method url body :: pause)%list /\
                  Forall (request_or_pause (request_event this method url body)) pause /\
                  fetched w1 = S (fetched w)).
        { subst w1. unfold after_backoff. destruct (_ <? _).
          - exists [EvSleep (backoff_delay attempt)]. cbn.
            rewrite <- app_assoc. repeat split.
            constructor; [right; eexists; reflexivity | constructor].
          - exists []. cbn. repeat split. constructor. }
        destruct Hw1 as [pause [Htr1 [Hp1 Hf1]]].
        exists (request_event this method url body :: pause ++ evs)%list, (S n).
        rewrite Htrace, Htr1, Hf, Hf1, <- app_assoc. cbn.
        repeat split; try lia.
        constructor; [left; reflexivity | ].
        apply Forall_app. split; assumption.
    + unfold attempt_outcome in Hout.
      destruct (settles (net w (fetched w))) as [t | [[t | json] | status errorBody]];
        discriminate Hout.
Qed.

End Schedule.

Section ScheduleProperties.

Context {J : Type}.

(** X5. A client configured with [maxRetries: 0] keeps that count, and
    every request it makes fails at once: no call of [fetch] is made, and
    the error is a Network error without a cause whose message is "Request
    failed after 0 attempts". *)
Theorem request_without_attempts :
  forall config client method path body (w : World J),
  new_StorageBrain config = inr client ->
  Types.maxRetries config = Some 0%nat ->
  request client method path body w =
  (Throws (ThrowError
     (NetworkError (Some "Request failed after 0 attempts") None)), w).
Proof.
  intros config client method path body w Hnew Hzero.
  unfold new_StorageBrain in Hnew.
  destruct (String.eqb (Types.apiKey config) ""); [discriminate Hnew | ].
  injection Hnew as <-. unfold request. cbn [maxRetries]. rewrite Hzero.
  reflexivity.
Qed.

Variable this : StorageBrain.

(** X6. When the first [k] attempts fail with failures that are retried and
    the next one, still within the [maxRetries] allowed, succeeds, [request]
    returns the body of that response after [k + 1] calls of [fetch]; it
    paused after each failure, for [min (1000 * 2^i, 10000)] ms after the
    failure numbered [i], and took the latencies and the pauses in time. *)
Theorem request_succeeds_after_retries :
  forall method path body (w : World J) (k : nat) json,
  (k < maxRetries this)%nat ->
  (forall i, (i < k)%nat ->
     exists t, attempt_outcome (net w (fetched w + i)) = Throws t /\
               no_retry t = false) ->
  attempt_outcome (net w (fetched w + k)) = Returns json ->
  exists w',
    request this method path body w = (Returns json, w') /\
    fetched w' = (fetched w + k + 1)%nat /\
    sleep_values (trace w') =
      (sleep_values (trace w) ++ map backoff_delay (seq 0 k))%list /\
    now w' = now w + retry_elapsed (net w) (fetched w) 0 k +
             Z.of_N (latency (net w (fetched w + k))).
Proof.
  intros method path body w k json Hk Hfail Hok. unfold request.
  replace (maxRetries this) with (k + S (maxRetries this - S k))%nat by lia.
  destruct (request_loop_retries this method (baseUrl this ++ path) body k
              (S (maxRetries this - S k)) 0%nat None w ltac:(lia) Hfail)
    as [w1 [last [Hrun [Hf [Hnet [Hnow Hsleep]]]]]].
  rewrite Hrun.
  rewrite <- Hnet, <- Hf in Hok.
  rewrite (request_loop_success this method (baseUrl this ++ path) body _ _ last
             w1 json Hok).
  eexists. split; [reflexivity | ].
  cbn [after_fetch fetched trace now]. rewrite sleep_values_app. cbn.
  rewrite app_nil_r, Hnet, Hf, Hnow, Hsleep. repeat split; lia.
Qed.

(** X7. When all the attempts fail with failures that are retried, the
    pauses of [request] are those between the attempts: one after each
    failure but the last, for [min (1000 * 2^i, 10000)] ms after the failure
    numbered [i].  The call throws its Network error as soon as the last
    attempt has failed. *)
Theorem request_exhausted_schedule :
  forall method path body (w : World J) (m : nat),
  maxRetries this = S m ->
  (forall i, (i < S m)%nat ->
     exists t, attempt_outcome (net w (fetched w + i)) = Throws t /\
               no_retry t = false) ->
  exists err w',
    request this method path body w = (Throws (ThrowError err), w') /\
    kind_of err = Some Network /\
    fetched w' = (fetched w + S m)%nat /\
    sleep_values (trace w') =
      (sleep_values (trace w) ++ map backoff_delay (seq 0 m))%list /\
    now w' = now w + retry_elapsed (net w) (fetched w) 0 m +
             Z.of_N (latency (net w (fetched w + m))).
Proof.
  intros method path body w m Hmax Hfail. unfold request.
  destruct (request_loop_retries this method (baseUrl this ++ path) body m
              1%nat 0%nat None w ltac:(lia)
              (fun i Hi => Hfail i ltac:(lia)))
    as [w1 [last [Hrun [Hf [Hnet [Hnow Hsleep]]]]]].
  rewrite Nat.add_1_r, <- Hmax in Hrun. rewrite Hrun.
  destruct (Hfail m ltac:(lia)) as [t [Ht Hno]].
  rewrite <- Hnet, <- Hf in Ht.
  rewrite (request_loop_retry this method (baseUrl this ++ path) body 0%nat
             (0 + m)%nat last w1 t Ht Hno).
  unfold after_backoff.
  destruct (Z.ltb_spec (Z.of_nat (0 + m)) (Z.of_nat (maxRetries this) - 1))
    as [Hlt | _]; [lia | ].
  cbn [request_loop]. unfold throw.
  eexists. eexists. split; [reflexivity | ].
  split; [reflexivity | ].
  cbn [after_fetch fetched trace now]. rewrite sleep_values_app. cbn.
  rewrite app_nil_r, Hnet, Hf, Hnow, Hsleep. repeat split; lia.
Qed.

(** X9. Whatever the network does and however the call ends, [request]
    calls [fetch] at least once and at most [maxRetries] times (never, when
    [maxRetries] is 0); every call has the method it was given, the base
    address followed by the path, and the header "Authorization: Bearer
    <apiKey>"; and the trace gains these calls and pauses only. *)
Theorem request_attempts_bounded :
  forall method path body (w : World J),
  let r := request this method path body w in
  exists evs (n : nat),
    trace (snd r) = (trace w ++ evs)%list /\
    fetched (snd r) = (fetched w + n)%nat /\
    (n <= maxRetries this)%nat /\
    (maxRetries this <> 0%nat -> n <> 0%nat) /\
    (forall ev, In ev evs -> (exists ms, ev = EvSleep ms) \/
       exists headers sent_body,
         ev = EvFetch method (baseUrl this ++ path) headers sent_body /\
         In ("Authorization", "Bearer " ++ apiKey this) headers).
Proof.
  intros method path body w r. subst r. unfold request.
  destruct (request_loop_events this method (baseUrl this ++ path) body
              (maxRetries this) 0%nat None w)
    as [evs [n [Htrace [Hall [Hf [Hn Hpos]]]]]].
  exists evs, n. repeat split; try assumption.
  intros ev Hin. rewrite Forall_forall in Hall.
  destruct (Hall ev Hin) as [-> | Hpause]; [right | left; exact Hpause].
  eexists. eexists. split; [reflexivity | ]. right. left. reflexivity.
Qed.

End ScheduleProperties.

(** X8. The pause after the failure numbered [n] is between 1000 and 10000
    ms; it is [1000 * 2^n] for the first four failures and 10000 from the
    fifth on; and it never shrinks from one failure to the next. *)
Theorem backoff_delay_schedule (n : nat) :
  1000 <= backoff_delay n <= 10000 /\
  ((n <= 3)%nat -> backoff_delay n = 1000 * 2 ^ Z.of_nat n) /\
  ((4 <= n)%nat -> backoff_delay n = 10000) /\
  (forall m, (n <= m)%nat -> backoff_delay n <= backoff_delay m).
Proof.
  unfold backoff_delay, RETRY_CONFIG.initialDelayMs, RETRY_CONFIG.maxDelayMs,
    RETRY_CONFIG.backoffMultiplier.
  pose proof (Z.pow_pos_nonneg 2 (Z.of_nat n) ltac:(lia) ltac:(lia)) as Hpos.
  split; [lia | ]. split; [ | split].
  - intros Hn.
    pose proof (Z.pow_le_mono_r 2 (Z.of_nat n) 3 ltac:(lia) ltac:(lia)) as H.
    change (2 ^ 3) with 8 in H. lia.
  - intros Hn.
    pose proof (Z.pow_le_mono_r 2 4 (Z.of_nat n) ltac:(lia) ltac:(lia)) as H.
    change (2 ^ 4) with 16 in H. lia.
  - intros m Hm.
    pose proof (Z.pow_le_mono_r 2 (Z.of_nat n) (Z.of_nat m) ltac:(lia) ltac:(lia)).
    lia.
Qed.

(** ** More on the polling loop *)

Section MorePolling.

Context {J : Type}.
Variable asFileInfo : J -> FileInfo.
Variable this : StorageBrain.
Variable fileId : string.
Variable signal : option AbortSignal.
Variables startTime maxWaitMs pollIntervalMs : Z.

Lemma polled_succ (n : nat) (w : World J) :
  polled this fileId pollIntervalMs (S n) w =
  polled this fileId pollIntervalMs n (after_poll this fileId pollIntervalMs w).
Proof. unfold polled. apply Nat.iter_succ_r. Qed.

Lemma polled_fetched (n : nat) (w : World J) :
  fetched (polled this fileId pollIntervalMs n w) = (fetched w + n)%nat /\
  net (polled this fileId pollIntervalMs n w) = net w /\
  xhr (polled this fileId pollIntervalMs n w) = xhr w /\
  sent (polled this fileId pollIntervalMs n w) = sent w.
Proof.
  induction n as [| n [IH1 [IH2 [IH3 IH4]]]]; [cbn; repeat split; lia | ].
  unfold polled in *. rewrite Nat.iter_succ.
  rewrite after_poll_fetched, after_poll_net, IH1, IH2.
  repeat split; try lia; assumption.
Qed.

(** A turn of the loop that finds the signal aborted throws without
    fetching. *)
Lemma poll_loop_cancelled fuel (w : World J) :
  now w - startTime < maxWaitMs ->
  aborted_at signal (now w) = true ->
  poll_loop asFileInfo this (S fuel) startTime fileId signal maxWaitMs
    pollIntervalMs w =
  (Throws (ThrowError (UploadError "Operation was cancelled" None)), w).
Proof.
  intros Hlt Hab. cbn [poll_loop]. unfold bind at 1. unfold Date_now.
  destruct (Z.ltb_spec (now w - startTime) maxWaitMs) as [_ | Hge]; [ | lia].
  unfold bind at 1. unfold signal_aborted. rewrite Hab. reflexivity.
Qed.

Hypothesis Hretries : (0 < maxRetries this)%nat.

(** A turn of the loop whose poll finds the file in a terminal state returns
    its record. *)
Lemma poll_loop_terminal fuel (w : World J) json :
  now w - startTime < maxWaitMs ->
  aborted_at signal (now w) = false ->
  attempt_outcome (net w (fetched w)) = Returns json ->
  is_terminal (processingStatus (asFileInfo json)) = true ->
  poll_loop asFileInfo this (S fuel) startTime fileId signal maxWaitMs
    pollIntervalMs w =
  (Returns (asFileInfo json), after_fetch w (poll_event this fileId)).
Proof.
  intros Hlt Hab Hout Hterm. cbn [poll_loop]. unfold bind at 1. unfold Date_now.
  destruct (Z.ltb_spec (now w - startTime) maxWaitMs) as [_ | Hge]; [ | lia].
  unfold bind at 1. unfold signal_aborted. rewrite Hab.
  unfold bind at 1.
  rewrite (getFile_success asFileInfo this fileId Hretries w json Hout), Hterm.
  reflexivity.
Qed.

(** [n] turns that go round. *)
Lemma poll_loop_polls (n : nat) :
  forall fuel (w : World J),
  in_progress_for asFileInfo this fileId signal startTime maxWaitMs
    pollIntervalMs n w ->
  poll_loop asFileInfo this (n + fuel) startTime fileId signal maxWaitMs
    pollIntervalMs w =
  poll_loop asFileInfo this fuel startTime fileId signal maxWaitMs
    pollIntervalMs (polled this fileId pollIntervalMs n w).
Proof.
  induction n as [| n IH]; intros fuel w Hall; [reflexivity | ].
  destruct (Hall 0%nat ltac:(lia)) as [Hlt [Hab [json [Hout Hterm]]]].
  rewrite Nat.add_0_r in Hout. cbn [polled Nat.iter] in Hlt, Hab.
  cbn [Nat.add].
  rewrite (poll_loop_step asFileInfo this fileId signal maxWaitMs pollIntervalMs
             Hretries (n + fuel) startTime w json Hlt Hab Hout Hterm).
  rewrite polled_succ. apply IH.
  intros i Hi. destruct (Hall (S i) ltac:(lia)) as [Hlt' [Hab' Hjson]].
  rewrite polled_succ in Hlt', Hab'.
  rewrite after_poll_net, after_poll_fetched.
  replace (S (fetched w) + i)%nat with (fetched w + S i)%nat by lia.
  auto.
Qed.

End MorePolling.

Section MorePollingProperties.

Context {J : Type}.
Variable asFileInfo : J -> FileInfo.
Variable this : StorageBrain.

(** X10. A wait with a positive [maxWaitMs] whose signal is already aborted
    throws "Operation was cancelled" without fetching anything; so does any
    later turn of the loop that starts before the deadline and finds the
    signal aborted, after [n] polls that found the file in progress: no
    fetch is made once the abort has been seen. *)
Theorem waitForProcessing_cancelled :
  forall fuel fileId signal maxWaitMs pollIntervalMs (w : World J) (n : nat),
  (0 < maxRetries this)%nat ->
  in_progress_for asFileInfo this fileId signal (now w) maxWaitMs
    pollIntervalMs n w ->
  now (polled this fileId pollIntervalMs n w) - now w < maxWaitMs ->
  aborted_at signal (now (polled this fileId pollIntervalMs n w)) = true ->
  waitForProcessing asFileInfo this (n + S fuel) fileId signal maxWaitMs
    pollIntervalMs w =
  (Throws (ThrowError (UploadError "Operation was cancelled" None)),
   polled this fileId pollIntervalMs n w) /\
  fetched (polled this fileId pollIntervalMs n w) = (fetched w + n)%nat.
Proof.
  intros fuel fileId signal maxWaitMs pollIntervalMs w n Hretries Hall Hlt Hab.
  split; [ | apply polled_fetched].
  unfold waitForProcessing, bind at 1, Date_now.
  rewrite (poll_loop_polls asFileInfo this fileId signal (now w) maxWaitMs
             pollIntervalMs Hretries n (S fuel) w Hall).
  apply poll_loop_cancelled; assumption.
Qed.

(** X11. When the file is found in progress by the first [n] polls and in a
    terminal state ([completed] or [failed]) by the next one, all before the
    deadline and without an abort, the wait returns the record of that poll
    after exactly [n + 1] fetches; a [failed] state is returned, not
    thrown. *)
Theorem waitForProcessing_returns_first_terminal :
  forall fuel fileId signal maxWaitMs pollIntervalMs (w : World J) (n : nat) json,
  (0 < maxRetries this)%nat ->
  in_progress_for asFileInfo this fileId signal (now w) maxWaitMs
    pollIntervalMs n w ->
  now (polled this fileId pollIntervalMs n w) - now w < maxWaitMs ->
  aborted_at signal (now (polled this fileId pollIntervalMs n w)) = false ->
  attempt_outcome (net w (fetched w + n)) = Returns json ->
  is_terminal (processingStatus (asFileInfo json)) = true ->
  let r := waitForProcessing asFileInfo this (n + S fuel) fileId signal
             maxWaitMs pollIntervalMs w in
  fst r = Returns (asFileInfo json) /\
  fetched (snd r) = (fetched w + n + 1)%nat.
Proof.
  intros fuel fileId signal maxWaitMs pollIntervalMs w n json Hretries Hall Hlt
    Hab Hout Hterm r.
  destruct (polled_fetched this fileId pollIntervalMs n w) as [Hf [Hnet _]].
  assert (Hrun : r = (Returns (asFileInfo json),
                      after_fetch (polled this fileId pollIntervalMs n w)
                        (poll_event this fileId))).
  { subst r. unfold waitForProcessing, bind at 1, Date_now.
    rewrite (poll_loop_polls asFileInfo this fileId signal (now w) maxWaitMs
               pollIntervalMs Hretries n (S fuel) w Hall).
    apply poll_loop_terminal; try assumption.
    rewrite Hnet, Hf. exact Hout. }
  rewrite Hrun. cbn [fst snd after_fetch fetched]. rewrite Hf.
  split; [reflexivity | lia].
Qed.

End MorePollingProperties.

(** ** More on the byte transfer *)

Section MoreTransfer.

Context {J : Type}.
Variable this : StorageBrain.
Variable signal : option AbortSignal.
Variable registeredAt : Z.
Variable onProgress : option (Z -> M J unit).

Lemma transfer_duration_nonneg progress endDelay :
  0 <= transfer_duration progress endDelay.
Proof.
  induction progress as [| [delay event] rest IH]; cbn; lia.
Qed.


(** A transfer that the signal does not abort dispatches all its events and
    ends as its last event says, when that event is due. *)
Lemma xhr_run_unaborted :
  (forall callback, onProgress = Some callback -> reporter callback) ->
  forall progress endDelay ending (w : World J),
  (forall t, t <= now w + transfer_duration progress endDelay ->
     abort_between signal registeredAt t = None) ->
  exists evs,
    xhr_run signal registeredAt onProgress progress endDelay ending w =
    (transfer_result ending,
     mkWorld (now w + transfer_duration progress endDelay) (net w) (fetched w)
       (xhr w) (sent w) (trace w ++ evs)).
Proof.
  intros Hreporter progress endDelay ending.
  induction progress as [| [delay event] rest IH]; intros w Hquiet;
    cbn [xhr_run transfer_duration] in *.
  - unfold bind, await_event. rewrite Hquiet by lia.
    exists []. rewrite app_nil_r.
    destruct ending as [status |]; cbn; [destruct (_ && _) | ]; reflexivity.
  - unfold bind at 1. unfold await_event.
    pose proof (transfer_duration_nonneg rest endDelay) as Hpos.
    rewrite Hquiet by lia.
    unfold bind at 1.
    destruct (on_progress_event_reports onProgress Hreporter event
                (set_now (now w + Z.of_N delay) w)) as [evs Hev].
    rewrite Hev.
    destruct (IH (mkWorld (now w + Z.of_N delay) (net w) (fetched w) (xhr w)
                    (sent w) (trace w ++ evs))) as [evs' Hrun].
    { cbn [now]. intros t Ht. apply Hquiet. cbn [set_now now] in *. lia. }
    cbn [set_now now net fetched xhr sent trace] in *.
    rewrite Hrun. exists (evs ++ evs')%list.
    rewrite app_assoc, Z.add_assoc. reflexivity.
Qed.

End MoreTransfer.

Section MoreTransferProperties.

Context {J : Type}.
Variable this : StorageBrain.


Lemma uploadToPresignedUrl_unaborted_world presignedUrl file contentType
    onProgress signal (w : World J) progress endDelay ending :
  (forall callback, onProgress = Some callback -> reporter callback) ->
  xhr w (sent w) = XhrRuns progress endDelay ending ->
  not_aborted_during signal (now w) (transfer_duration progress endDelay) ->
  exists evs,
    uploadToPresignedUrl this presignedUrl file contentType onProgress signal w =
    (transfer_result ending,
     mkWorld (now w + transfer_duration progress endDelay) (net w) (fetched w)
       (xhr w) (S (sent w)) (trace w ++ evs)).
Proof.
  intros Hreporter Hscript Hquiet.
  destruct (uploadToPresignedUrl_sent this presignedUrl file contentType
              onProgress signal w progress endDelay ending Hscript)
    as [Hw [Hthrow Hret]].
  destruct (xhr_run_unaborted signal (now w) onProgress Hreporter progress
              endDelay ending
              (after_send w (EvXhr "PUT" (transfer_url this presignedUrl)
                               (transfer_headers this presignedUrl contentType)
                               file)) Hquiet) as [evs Hrun].
  rewrite Hrun in Hw, Hthrow, Hret. cbn [fst snd after_send now] in *.
  exists (EvXhr "PUT" (transfer_url this presignedUrl)
            (transfer_headers this presignedUrl contentType) file :: evs).
  destruct (uploadToPresignedUrl this presignedUrl file contentType onProgress
              signal w) as [o w'].
  cbn [fst snd] in *. subst w'. f_equal.
  - destruct ending as [status |]; cbn [transfer_result] in *.
    + destruct ((200 <=? status) && (status <? 300)).
      * apply Hret. reflexivity.
      * apply (Hthrow _ eq_refl eq_refl).
    + apply (Hthrow _ eq_refl eq_refl).
  - unfold after_send. cbn [now net fetched xhr sent trace].
    rewrite <- app_assoc. reflexivity.
Qed.

(** X13. A transfer that is sent and that the signal does not abort ends as
    its last event says, [transfer_duration] after it was sent: it returns
    on a [load] with a status from 200 to 299, throws the Upload error
    "Upload failed with status N" on a [load] with any other status N, and
    throws the Network error "Network error during upload" on an [error]
    event. *)
Theorem uploadToPresignedUrl_unaborted :
  forall presignedUrl file contentType onProgress signal (w : World J)
         progress endDelay ending,
  (forall callback, onProgress = Some callback -> reporter callback) ->
  xhr w (sent w) = XhrRuns progress endDelay ending ->
  not_aborted_during signal (now w) (transfer_duration progress endDelay) ->
  let r := uploadToPresignedUrl this presignedUrl file contentType onProgress
             signal w in
  fst r = transfer_result ending /\
  now (snd r) = now w + transfer_duration progress endDelay /\
  fetched (snd r) = fetched w /\
  sent (snd r) = S (sent w).
Proof.
  intros presignedUrl file contentType onProgress signal w progress endDelay
    ending Hreporter Hscript Hquiet r.
  destruct (uploadToPresignedUrl_unaborted_world presignedUrl file contentType
              onProgress signal w progress endDelay ending Hreporter Hscript
              Hquiet) as [evs Hrun].
  subst r. rewrite Hrun. repeat split.
Qed.

End MoreTransferProperties.

(** ** More on the upload *)

Section MoreUpload.

Context {J : Type}.
Variable asUploadHandshake : J -> UploadHandshake.
Variable asFileInfo : J -> FileInfo.
Variable this : StorageBrain.
Variable options : UploadOptions.

(** The callback [upload] gives to the transfer only reports. *)
Lemma upload_callback_reports :
  reporter (fun p : Z => report (J := J) options (scale_progress p)).
Proof.
  intros p w. unfold report. destruct (onProgress options).
  - exists [EvProgress (scale_progress p)]. reflexivity.
  - exists []. rewrite app_nil_r. destruct w; reflexivity.
Qed.

Lemma report_world value (w : World J) :
  exists evs,
    report options value w =
    (Returns tt,
     mkWorld (now w) (net w) (fetched w) (xhr w) (sent w) (trace w ++ evs)).
Proof.
  unfold report. destruct (onProgress options).
  - exists [EvProgress value]. reflexivity.
  - exists []. rewrite app_nil_r. destruct w; reflexivity.
Qed.

Lemma requestUpload_quiet fileType fileName fileSize context tags webhookUrl
    (w : World J) :
  quiet w (snd (requestUpload asUploadHandshake this fileType fileName fileSize
                  context tags webhookUrl w)).
Proof.
  unfold requestUpload, bind.
  match goal with
  | |- context [request this ?m ?p ?b w] =>
      pose proof (request_quiet this m p b w) as H;
      destruct (request this m p b w) as [[json | t |] w1]; exact H
  end.
Qed.

Hypothesis Hcallback : onProgress options = true.




End MoreUpload.

Section MoreUploadLemmas.

Context {J : Type}.
Variable this : StorageBrain.

Lemma allowed_type_accepted (fileType : string) :
  In fileType ALLOWED_MIME_TYPES ->
  negb (existsb (String.eqb fileType) ALLOWED_MIME_TYPES) = false.
Proof.
  intros Hin. apply negb_false_iff, existsb_exists.
  exists fileType. split; [exact Hin | apply String.eqb_refl].
Qed.

(** However it ends, a transfer leaves the API alone: it makes no call of
    [fetch]. *)
Lemma uploadToPresignedUrl_world presignedUrl file contentType onProgress signal
    (w : World J) :
  (forall callback, onProgress = Some callback -> reporter callback) ->
  exists o t evs,
    uploadToPresignedUrl this presignedUrl file contentType onProgress signal w =
    (o, mkWorld t (net w) (fetched w) (xhr w) (S (sent w)) (trace w ++ evs)).
Proof.
  intros Hreporter.
  destruct (xhr w (sent w)) as [t | progress endDelay ending] eqn:Hscript.
  - unfold uploadToPresignedUrl, try_catch, bind, Date_now, xhr_send.
    rewrite Hscript.
    destruct t as [e | v]; [destruct (instanceof_StorageBrainError e) | ];
      cbn; do 2 eexists; exists []; rewrite app_nil_r; reflexivity.
  - destruct (uploadToPresignedUrl_sent this presignedUrl file contentType
                onProgress signal w progress endDelay ending Hscript) as [Hw _].
    destruct (xhr_run_trace signal (now w) onProgress Hreporter progress endDelay
                ending
                (after_send w (EvXhr "PUT" (transfer_url this presignedUrl)
                                 (transfer_headers this presignedUrl contentType)
                                 file))) as [o [t [evs Hrun]]].
    rewrite Hrun in Hw. cbn [snd after_send net fetched xhr sent trace] in Hw.
    destruct (uploadToPresignedUrl this presignedUrl file contentType onProgress
                signal w) as [o' w'].
    cbn [snd] in Hw. subst w'. exists o', t. eexists.
    rewrite <- app_assoc. reflexivity.
Qed.







End MoreUploadLemmas.

Section MoreUploadProperties.

Context {J : Type}.
Variable asUploadHandshake : J -> UploadHandshake.
Variable asFileInfo : J -> FileInfo.
Variable this : StorageBrain.



(** X16. A signal that is already aborted when [upload] is called does not
    stop the upload before the bytes are sent: the slot is requested and the
    transfer runs to its end, and only then does the wait throw "Operation
    was cancelled", before any poll.  So the call fails although the file
    was transferred. *)
Theorem upload_with_aborted_signal_still_transfers :
  forall fuel file options (w : World J) s a json progress endDelay status,
  In (file_type file) ALLOWED_MIME_TYPES ->
  (0 < maxRetries this)%nat ->
  signal options = Some s ->
  abortAt s = Some a ->
  a <= now w ->
  attempt_outcome (net w (fetched w)) = Returns json ->
  xhr w (sent w) = XhrRuns progress endDelay (XLoad status) ->
  (200 <=? status) && (status <? 300) = true ->
  let r := upload asUploadHandshake asFileInfo this (S fuel) file options w in
  fst r = Throws (ThrowError (UploadError "Operation was cancelled" None)) /\
  sent (snd r) = S (sent w) /\
  fetched (snd r) = S (fetched w).
Proof.
  intros fuel file options w s a json progress endDelay status Hallowed
    Hretries Hsignal Habort Ha Hslot Hscript Hstatus r.
  assert (Hrun : exists w',
            upload asUploadHandshake asFileInfo this (S fuel) file options w =
            (Throws (ThrowError (UploadError "Operation was cancelled" None)), w') /\
            sent w' = S (sent w) /\ fetched w' = S (fetched w));
    [ | destruct Hrun as [w' [Hrun [Hs Hf]]]; subst r; rewrite Hrun; auto].
  unfold upload. rewrite (allowed_type_accepted _ Hallowed).
  unfold bind at 1. unfold requestUpload, bind at 1, request.
  destruct (maxRetries this) as [| n] eqn:Hn; [lia | ].
  rewrite (request_loop_success this "POST" _ _ n 0%nat None w json Hslot).
  unfold ret at 1.
  set (w1 := after_fetch w _).
  unfold bind at 1.
  destruct (report_world options 10 w1) as [evs10 H10]. rewrite H10.
  set (w2 := mkWorld (now w1) _ _ _ _ _).
  pose proof (N2Z.is_nonneg (latency (net w (fetched w)))) as Hlat.
  unfold bind at 1. rewrite Hsignal.
  rewrite (uploadToPresignedUrl_aborted_before this _ file _ _ s a w2 Habort
             ltac:(subst w2 w1; cbn; lia)).
  destruct (uploadToPresignedUrl_unaborted_world this
              (presignedUrl (asUploadHandshake json)) file (file_type file)
              (Some (fun p => report options (scale_progress p))) None w2
              progress endDelay (XLoad status))
    as [evsT HT].
  { intros callback [= <-]. apply upload_callback_reports. }
  { exact Hscript. }
  { intros t _. reflexivity. }
  rewrite HT. cbn [transfer_result]. rewrite Hstatus.
  set (w3 := mkWorld (now w2 + _) _ _ _ _ _).
  unfold bind at 1.
  destruct (report_world options 90 w3) as [evs90 H90]. rewrite H90.
  set (w4 := mkWorld (now w3) _ _ _ _ _).
  unfold bind at 1. unfold waitForProcessing, bind at 1, Date_now.
  rewrite (poll_loop_cancelled asFileInfo this (fileId (asUploadHandshake json))
             (Some s) (now w4) DEFAULT_MAX_WAIT_MS DEFAULT_POLL_INTERVAL_MS
             fuel w4).
  - eexists. split; [reflexivity | split; reflexivity].
  - unfold DEFAULT_MAX_WAIT_MS. lia.
  - pose proof (transfer_duration_nonneg progress endDelay).
    cbn. rewrite Habort. apply Z.leb_le. lia.
Qed.

(** X17. A failure stops the upload where it happens and is thrown as it
    is.  When the request of the slot throws, the upload throws the same
    error, and it has started no transfer and reported nothing.  When the
    slot is granted and the transfer throws, the upload throws the same
    error, and it has made no call of [fetch] after the slot was granted: it
    does not poll. *)
Theorem upload_stops_at_first_failure :
  forall fuel file options (w : World J),
  In (file_type file) ALLOWED_MIME_TYPES ->
  let slot :=
    requestUpload asUploadHandshake this (file_type file)
      (or_default (file_name file) "file") (file_size file)
      (opt_context options) (opt_tags options) (webhookUrl options) w in
  let r := upload asUploadHandshake asFileInfo this fuel file options w in
  (forall t, fst slot = Throws t ->
     r = (Throws t, snd slot) /\
     sent (snd r) = sent w /\
     progress_values (trace (snd r)) = progress_values (trace w)) /\
  (forall handshake t,
     fst slot = Returns handshake ->
     fst (uploadToPresignedUrl this (presignedUrl handshake) file (file_type file)
            (Some (fun p => report options (scale_progress p))) (signal options)
            (snd (report options 10 (snd slot)))) = Throws t ->
     fst r = Throws t /\
     fetched (snd r) = fetched (snd slot) /\
     sent (snd r) = S (sent w)).
Proof.
  intros fuel file options w Hallowed slot r.
  pose proof (requestUpload_quiet asUploadHandshake this (file_type file)
                (or_default (file_name file) "file") (file_size file)
                (opt_context options) (opt_tags options) (webhookUrl options) w)
    as Hq.
  subst r slot. unfold upload. rewrite (allowed_type_accepted _ Hallowed).
  unfold bind.
  destruct (requestUpload asUploadHandshake this (file_type file)
              (or_default (file_name file) "file") (file_size file)
              (opt_context options) (opt_tags options) (webhookUrl options) w)
    as [[handshake | t0 |] w1];
    destruct Hq as [_ [Hsent Hvalues]]; cbn [fst snd] in *.
  - split; [intros t H; discriminate H | ].
    intros h t [= <-].
    destruct (report_world options 10 w1) as [evs10 H10]. rewrite H10.
    cbn [snd].
    destruct (uploadToPresignedUrl_world this (presignedUrl handshake) file
                (file_type file)
                (Some (fun p => report options (scale_progress p)))
                (signal options)
                (mkWorld (now w1) (net w1) (fetched w1) (xhr w1) (sent w1)
                   (trace w1 ++ evs10)))
      as [o3 [t3 [evs3 H3]]].
    { intros callback [= <-]. apply upload_callback_reports. }
    rewrite H3. cbn [fst snd net fetched xhr sent trace].
    intros ->. cbn. repeat split. congruence.
  - split; [ | intros h t H; discriminate H].
    intros t [= <-]. repeat split; assumption.
  - split; [intros t H; discriminate H | intros h t H; discriminate H].
Qed.

End MoreUploadProperties.

(** ** The other methods *)

Lemma count_char_app (c : ascii) (s s' : string) :
  count_char c (s ++ s') = (count_char c s + count_char c s')%nat.
Proof.
  induction s as [| c' s IH]; [reflexivity | ].
  cbn. rewrite IH. lia.
Qed.

Lemma all_chars_app (test : ascii -> bool) (s s' : string) :
  all_chars test (s ++ s') = all_chars test s && all_chars test s'.
Proof.
  induction s as [| c s IH]; [reflexivity | ].
  cbn. rewrite IH. apply andb_assoc.
Qed.

Lemma hex_digit_safe (n : nat) : query_safe (Api.hex_digit n) = true.
Proof.
  unfold Api.hex_digit.
  do 16 (destruct n as [| n]; [reflexivity | ]).
  destruct n; reflexivity.
Qed.

Lemma encode_byte_safe (c : ascii) :
  all_chars query_safe (Api.encode_byte c) = true.
Proof.
  unfold Api.encode_byte.
  destruct (Api.is_unreserved c) eqn:Hc.
  - cbn. unfold query_safe. rewrite Hc. reflexivity.
  - destruct (Ascii.eqb c " "); [reflexivity | ].
    cbn [all_chars]. rewrite !hex_digit_safe. reflexivity.
Qed.

Lemma urlencode_safe (s : string) :
  all_chars query_safe (Api.urlencode s) = true.
Proof.
  induction s as [| c s IH]; [reflexivity | ].
  cbn [Api.urlencode]. rewrite all_chars_app, encode_byte_safe, IH. reflexivity.
Qed.

Lemma count_char_unsafe (c : ascii) (s : string) :
  query_safe c = false ->
  all_chars query_safe s = true ->
  count_char c s = 0%nat.
Proof.
  intros Hc. induction s as [| c' s IH]; [reflexivity | ].
  cbn. intros H. apply andb_true_iff in H. destruct H as [Hc' Hs].
  rewrite (IH Hs).
  destruct (Ascii.eqb_spec c' c) as [-> | _]; [congruence | reflexivity].
Qed.

(** X19. The serializer of a query writes only letters, digits and the
    characters [*], [-], [.], [_], [%] and [+]: a value never brings a
    [&], [=], [?], [#], [/] or space into the query.  A text made of
    letters, digits, [*], [-], [.] and [_] is written as it is. *)
Theorem urlencode_writes_safe_characters (s : string) :
  all_chars query_safe (Api.urlencode s) = true /\
  count_char "&" (Api.urlencode s) = 0%nat /\
  count_char "=" (Api.urlencode s) = 0%nat /\
  count_char "?" (Api.urlencode s) = 0%nat /\
  count_char "#" (Api.urlencode s) = 0%nat /\
  count_char "/" (Api.urlencode s) = 0%nat /\
  count_char " " (Api.urlencode s) = 0%nat /\
  (all_chars Api.is_unreserved s = true -> Api.urlencode s = s).
Proof.
  pose proof (urlencode_safe s) as Hsafe.
  repeat (split; [first [exact Hsafe | apply count_char_unsafe;
                          [reflexivity | exact Hsafe]] | ]).
  induction s as [| c s IH]; [reflexivity | ].
  cbn [all_chars Api.urlencode]. intros H.
  apply andb_true_iff in H. destruct H as [Hc Hs].
  unfold Api.encode_byte. rewrite Hc. cbn.
  rewrite IH; [reflexivity | exact (urlencode_safe s) | exact Hs].
Qed.

Lemma listFiles_params_entries (options : option Api.ListFilesOptions) :
  Api.listFiles_params options =
  (entry (Api.field options Api.limit) Api.nonzero "limit" string_of_Z ++
   entry (Api.field options Api.cursor) Api.nonempty "cursor" (fun s => s) ++
   entry (Api.field options Api.context) Api.nonempty "context" (fun s => s) ++
   entry (Api.field options Api.fileType) Api.nonempty "fileType" (fun s => s))%list.
Proof.
  unfold Api.listFiles_params, Api.set_if, entry.
  destruct options as [[l c x f] |]; cbn [Api.field Api.limit Api.cursor
                                           Api.context Api.fileType];
    [ | reflexivity].
  destruct l as [n |]; [destruct (Api.nonzero n) | ];
    (destruct c as [s |]; [destruct (Api.nonempty s) | ]);
    (destruct x as [s' |]; [destruct (Api.nonempty s') | ]);
    (destruct f as [s'' |]; [destruct (Api.nonempty s'') | ]);
    reflexivity.
Qed.

Lemma toString_separators (params : Api.URLSearchParams) :
  count_char "=" (Api.toString params) = length params /\
  count_char "&" (Api.toString params) = (length params - 1)%nat.
Proof.
  unfold Api.toString.
  induction params as [| [k v] rest [IHeq IHamp]]; [split; reflexivity | ].
  assert (Hpair : forall c, query_safe c = false ->
            count_char c (Api.urlencode k ++ "=" ++ Api.urlencode v) =
            count_char c "=").
  { intros c Hc. rewrite !count_char_app.
    rewrite (count_char_unsafe c _ Hc (urlencode_safe k)).
    rewrite (count_char_unsafe c _ Hc (urlencode_safe v)). lia. }
  destruct rest as [| kv rest].
  - change (String.concat "&" (map _ [(k, v)]))
      with (Api.urlencode k ++ "=" ++ Api.urlencode v).
    rewrite (Hpair "="%char eq_refl), (Hpair "&"%char eq_refl).
    split; reflexivity.
  - change (String.concat "&" (map _ ((k, v) :: kv :: rest)))
      with ((Api.urlencode k ++ "=" ++ Api.urlencode v) ++ "&" ++
            String.concat "&"
              (map (fun kv => Api.urlencode (fst kv) ++ "=" ++ Api.urlencode (snd kv))
                 (kv :: rest))).
    rewrite (count_char_app "=" (Api.urlencode k ++ "=" ++ Api.urlencode v)).
    rewrite (count_char_app "&" (Api.urlencode k ++ "=" ++ Api.urlencode v)).
    rewrite (Hpair "="%char eq_refl), (Hpair "&"%char eq_refl).
    rewrite (count_char_app "=" "&"), (count_char_app "&" "&").
    rewrite IHeq, IHamp.
    change (count_char "=" "=") with 1%nat. change (count_char "&" "=") with 0%nat.
    change (count_char "=" "&") with 0%nat. change (count_char "&" "&") with 1%nat.
    cbn [length]. split; lia.
Qed.

(** X18. [listFiles] asks for "/api/v1/files" when the options give no
    field, or only fields that are falsy (a limit of 0, an empty text).
    Otherwise the path is "/api/v1/files?" and the query; the query holds
    one parameter for each field that is given and truthy, in the order
    limit, cursor, context, fileType, and has one [=] for each parameter and
    one [&] between two of them, whatever the values contain. *)
Theorem listFiles_path_query (options : option Api.ListFilesOptions) :
  let params := Api.listFiles_params options in
  params =
    (entry (Api.field options Api.limit) Api.nonzero "limit" string_of_Z ++
     entry (Api.field options Api.cursor) Api.nonempty "cursor" (fun s => s) ++
     entry (Api.field options Api.context) Api.nonempty "context" (fun s => s) ++
     entry (Api.field options Api.fileType) Api.nonempty "fileType" (fun s => s))%list /\
  (params = [] -> Api.listFiles_path options = "/api/v1/files") /\
  (params <> [] ->
     Api.listFiles_path options = "/api/v1/files?" ++ Api.toString params /\
     count_char "=" (Api.toString params) = length params /\
     count_char "&" (Api.toString params) = (length params - 1)%nat).
Proof.
  intros params. split; [apply listFiles_params_entries | ].
  unfold Api.listFiles_path. fold params. split.
  - intros ->. reflexivity.
  - intros Hne. destruct (toString_separators params) as [Heq Hamp].
    split; [ | split; assumption].
    unfold Api.nonempty.
    destruct (String.eqb_spec (Api.toString params) "") as [Hempty | _];
      [ | reflexivity].
    rewrite Hempty in Heq. destruct params; [contradiction | discriminate Heq].
Qed.

Section Methods.

Context {J : Type}.
Variable asFileInfo : J -> FileInfo.
Variable this : StorageBrain.


(** X21. When the first response to [getFile] is an error whose code is
    FILE_NOT_FOUND or NOT_FOUND, the call throws a FileNotFound error after
    that one attempt.  The id the error carries is the one in the details of
    the body, or "unknown" when there is none: the id that was asked for is
    not used, so asking for another id gives the same error. *)
Theorem getFile_not_found_forgets_id :
  forall fileId (w : World J) status c m d,
  (0 < maxRetries this)%nat ->
  c = "FILE_NOT_FOUND" \/ c = "NOT_FOUND" ->
  settles (net w (fetched w)) = inr (ErrorResponse status (Some (error_body c m d))) ->
  fst (getFile asFileInfo this fileId w) =
    Throws (ThrowError
      (FileNotFoundError (coalesce (opt_prop d "fileId") (JStr "unknown")))) /\
  fetched (snd (getFile asFileInfo this fileId w)) = S (fetched w) /\
  (forall other, fst (getFile asFileInfo this other w) =
                 fst (getFile asFileInfo this fileId w)).
Proof.
  intros fileId w status c m d Hretries Hc Hnet.
  assert (Hget : forall id,
            getFile asFileInfo this id w =
            (Throws (ThrowError
               (FileNotFoundError (coalesce (opt_prop d "fileId") (JStr "unknown")))),
             after_fetch w (poll_event this id))).
  { intros id. unfold getFile, bind, request.
    destruct (maxRetries this) as [| n]; [lia | ].
    rewrite (request_loop_rethrow this "GET" _ JUndefined n 0%nat None w
               (ThrowError (FileNotFoundError
                  (coalesce (opt_prop d "fileId") (JStr "unknown"))))).
    - reflexivity.
    - unfold attempt_outcome. rewrite Hnet.
      destruct Hc as [-> | ->]; reflexivity.
    - reflexivity. }
  rewrite !Hget. repeat split. intros other. rewrite Hget. reflexivity.
Qed.

Variable asListFilesResult : J -> Api.ListFilesResult.
Variable asQuotaInfo : J -> Api.QuotaInfo.
Variable asTenantInfo : J -> Api.TenantInfo.

(** X22. The methods that read or delete send no request body and talk to
    one address each: whatever the network does and however the call ends,
    every call of [fetch] made by [getFile], [listFiles], [getQuota] or
    [getTenantInfo] is a GET of the path of the method, and every call made
    by [deleteFile] is a DELETE of the path of the file, all with the
    headers of the client and without a body; and none of them starts a
    byte transfer. *)
Theorem queries_send_no_body :
  forall (w : World J) fileId options,
  let query method path :=
    EvFetch method (baseUrl this ++ path) (request_headers this) None in
  (calls_only (query "GET" ("/api/v1/files/" ++ fileId)) w
     (snd (getFile asFileInfo this fileId w)) /\
   calls_only (query "GET" (Api.listFiles_path options)) w
     (snd (Api.listFiles asListFilesResult this options w)) /\
   calls_only (query "DELETE" ("/api/v1/files/" ++ fileId)) w
     (snd (Api.deleteFile this fileId w)) /\
   calls_only (query "GET" "/api/v1/tenant/quota") w
     (snd (Api.getQuota asQuotaInfo this w)) /\
   calls_only (query "GET" "/api/v1/tenant/info") w
     (snd (Api.getTenantInfo asTenantInfo this w))) /\
  sent (snd (getFile asFileInfo this fileId w)) = sent w /\
  sent (snd (Api.listFiles asListFilesResult this options w)) = sent w /\
  sent (snd (Api.deleteFile this fileId w)) = sent w /\
  sent (snd (Api.getQuota asQuotaInfo this w)) = sent w /\
  sent (snd (Api.getTenantInfo asTenantInfo this w)) = sent w.
Proof.
  intros w fileId options query.
  assert (Hreq : forall method path,
            calls_only (query method path) w
              (snd (request this method path JUndefined w)) /\
            sent (snd (request this method path JUndefined w)) = sent w).
  { intros method path. unfold request. split.
    - destruct (request_loop_events this method (baseUrl this ++ path) JUndefined
                  (maxRetries this) 0%nat None w)
        as [evs [n [Htrace [Hall _]]]].
      exists evs. split; [exact Htrace | exact Hall].
    - apply (request_loop_quiet this method (baseUrl this ++ path) JUndefined). }
  assert (Hbind : forall (A B : Type) (c : M J A) (f : A -> B),
            snd (bind c (fun a => ret (f a)) w) = snd (c w)).
  { intros A B c f. unfold bind, ret. destruct (c w) as [[a | t |] w']; reflexivity. }
  unfold getFile, Api.listFiles, Api.deleteFile, Api.getQuota, Api.getTenantInfo.
  rewrite !Hbind.
  repeat split; apply Hreq.
Qed.

End Methods.

(** ** The further properties on sample runs *)

Import MoreSamples.


(** X2 on two bodies with the code FILE_TOO_LARGE that differ by their
    message, answered with different statuses. *)
Lemma server_message_discarded_witness :
  parseApiError 413 (error_body "FILE_TOO_LARGE" (Some "too big")
                       (Some [("fileSize", JNum 9); ("maxSize", JNum 5)])) =
  parseApiError 400 (error_body "FILE_TOO_LARGE" None
                       (Some [("fileSize", JNum 9); ("maxSize", JNum 5)])).
Proof.
  apply (server_message_discarded "FILE_TOO_LARGE" FileTooLarge).
  - reflexivity.
  - right. left. reflexivity.
Defined.

(** X4 on a configuration without a key, and on one whose base address
    ends with a slash. *)
Lemma new_StorageBrain_normalizes_witness :
  (exists e, new_StorageBrain without_key = inl e /\
             kind_of e = Some Configuration) /\
  (exists client, new_StorageBrain no_retries = inr client /\
                  baseUrl client = "https://api.example" /\
                  maxRetries client = 0%nat).
Proof.
  split.
  - destruct (proj1 (new_StorageBrain_normalizes without_key) eq_refl)
      as [e [He [Hk _]]].
    exists e. split; assumption.
  - destruct (proj2 (new_StorageBrain_normalizes no_retries))
      as [client [Hc [_ [_ [Hr [_ [Hb _]]]]]]].
    + discriminate.
    + exists client. split; [exact Hc | ].
      split; [apply (Hb "https://api.example"); reflexivity | exact Hr].
Defined.

(** X5 on a client built with [maxRetries: 0]. *)
Lemma request_without_attempts_witness :
  request (mkStorageBrain "sk_test_1" "https://api.example" 30000 0) "GET"
    "/api/v1/tenant/quota" JUndefined (start smooth three_steps) =
  (Throws (ThrowError
     (NetworkError (Some "Request failed after 0 attempts") None)),
   start smooth three_steps).
Proof.
  apply (request_without_attempts no_retries); reflexivity.
Defined.

(** X6 on two responses with status 500 followed by a success. *)
Lemma request_succeeds_after_retries_witness :
  exists w',
    request client "GET" "/api/v1/files/f1" JUndefined (start flaky three_steps)
      = (Returns (json "" completed), w') /\
    fetched w' = 3%nat /\
    sleep_values (trace w') = [1000; 2000] /\
    now w' = 3070.
Proof.
  destruct (request_succeeds_after_retries client "GET" "/api/v1/files/f1"
              JUndefined (start flaky three_steps) 2 (json "" completed))
    as [w' [Hrun [Hf [Hs Hn]]]].
  - cbn. lia.
  - intros i Hi. destruct i as [| [| i]]; [ | | lia];
      eexists; split; reflexivity.
  - reflexivity.
  - exists w'. repeat split; assumption.
Defined.

(** X7 on a server that always answers 503, with three attempts. *)
Lemma request_exhausted_schedule_witness :
  exists err w',
    request client "GET" "/api/v1/files/f1" JUndefined
      (start server_down three_steps) = (Throws (ThrowError err), w') /\
    kind_of err = Some Network /\
    fetched w' = 3%nat /\
    sleep_values (trace w') = [1000; 2000] /\
    now w' = 3060.
Proof.
  apply (request_exhausted_schedule client "GET" "/api/v1/files/f1" JUndefined
           (start server_down three_steps) 2 eq_refl).
  intros i Hi. eexists. split; reflexivity.
Defined.

(** X10 on a signal aborted during the first pause. *)
Lemma waitForProcessing_cancelled_witness :
  fst (waitForProcessing snd client 2 "f1" (Some (mkSignal (Some 500))) 3000 1000
         (start stuck three_steps))
    = Throws (ThrowError (UploadError "Operation was cancelled" None)) /\
  fetched (snd (waitForProcessing snd client 2 "f1" (Some (mkSignal (Some 500)))
                  3000 1000 (start stuck three_steps))) = 1%nat.
Proof.
  destruct (waitForProcessing_cancelled snd client 0 "f1"
              (Some (mkSignal (Some 500))) 3000 1000 (start stuck three_steps) 1)
    as [Hrun Hf].
  - cbn. lia.
  - intros i Hi. destruct i as [| i]; [ | lia].
    cbn. repeat split; try lia. eexists. split; reflexivity.
  - cbn. lia.
  - reflexivity.
  - change (1 + 1)%nat with 2%nat in Hrun. rewrite Hrun.
    split; [reflexivity | exact Hf].
Defined.

(** X11 on a file that is pending, then processing, then completed: three
    fetches. *)
Lemma waitForProcessing_returns_first_terminal_witness :
  fst (waitForProcessing snd client 3 "f1" None 60000 1000
         (start progressing three_steps)) = Returns (record completed) /\
  fetched (snd (waitForProcessing snd client 3 "f1" None 60000 1000
                  (start progressing three_steps))) = 3%nat.
Proof.
  apply (waitForProcessing_returns_first_terminal snd client 0 "f1" None 60000
           1000 (start progressing three_steps) 2 (json "" completed)).
  - cbn. lia.
  - intros i Hi. destruct i as [| [| i]]; [ | | lia];
      cbn; repeat split; try lia; eexists; split; reflexivity.
  - cbn. lia.
  - reflexivity.
  - reflexivity.
  - reflexivity.
Defined.


(** X13 on a transfer answered with status 500 after 5 ms. *)
Lemma uploadToPresignedUrl_unaborted_witness :
  fst (uploadToPresignedUrl client "/api/v1/upload/f1" png "image/png" None None
         (start smooth rejected_transfer))
    = Throws (ThrowError (UploadError "Upload failed with status 500" None)) /\
  now (snd (uploadToPresignedUrl client "/api/v1/upload/f1" png "image/png" None
              None (start smooth rejected_transfer))) = 5.
Proof.
  destruct (uploadToPresignedUrl_unaborted client "/api/v1/upload/f1" png
              "image/png" None None (start smooth rejected_transfer) [] 5%N
              (XLoad 500)) as [Hr [Hn _]].
  - intros callback Hc. discriminate Hc.
  - reflexivity.
  - intros t Ht. reflexivity.
  - split; [exact Hr | exact Hn].
Defined.



(** X16 on a signal aborted before the call. *)
Lemma upload_with_aborted_signal_still_transfers_witness :
  let r := upload fst snd client 61 png
             (with_progress (Some (mkSignal (Some (-1)))))
             (start smooth three_steps) in
  fst r = Throws (ThrowError (UploadError "Operation was cancelled" None)) /\
  sent (snd r) = 1%nat /\
  fetched (snd r) = 1%nat.
Proof.
  apply (upload_with_aborted_signal_still_transfers fst snd client 60 png
           (with_progress (Some (mkSignal (Some (-1)))))
           (start smooth three_steps) (mkSignal (Some (-1))) (-1)
           (json "/api/v1/upload/f1" pending)
           [(10%N, mkProgressEvent true 0 2048);
            (10%N, mkProgressEvent true 1024 2048);
            (10%N, mkProgressEvent true 2048 2048)] 5%N 200).
  - cbn. tauto.
  - cbn. lia.
  - reflexivity.
  - reflexivity.
  - cbn. lia.
  - reflexivity.
  - reflexivity.
  - reflexivity.
Defined.

(** X17 on a server that is down, and on a transfer answered with 500. *)
Lemma upload_stops_at_first_failure_witness :
  sent (snd (upload fst snd client 61 png (with_progress None)
               (start server_down three_steps))) = 0%nat /\
  fetched (snd (upload fst snd client 61 png (with_progress None)
                  (start smooth rejected_transfer))) = 1%nat.
Proof.
  split.
  - destruct (upload_stops_at_first_failure fst snd client 61 png
                (with_progress None) (start server_down three_steps))
      as [Hslot _]; [cbn; tauto | ].
    cbv zeta in Hslot.
    destruct (Hslot _ eq_refl) as [_ [Hsent _]]. exact Hsent.
  - destruct (upload_stops_at_first_failure fst snd client 61 png
                (with_progress None) (start smooth rejected_transfer))
      as [_ Htransfer]; [cbn; tauto | ].
    cbv zeta in Htransfer.
    destruct (Htransfer _ _ eq_refl eq_refl) as [_ [Hf _]]. exact Hf.
Defined.


(** X21 on a server that answers 404 with the code NOT_FOUND and no
    details. *)
Lemma getFile_not_found_forgets_id_witness :
  fst (getFile snd client "f1" (start missing three_steps)) =
    Throws (ThrowError (FileNotFoundError (JStr "unknown"))) /\
  fst (getFile snd client "another" (start missing three_steps)) =
  fst (getFile snd client "f1" (start missing three_steps)).
Proof.
  destruct (getFile_not_found_forgets_id snd client "f1"
              (start missing three_steps) 404 "NOT_FOUND" None None)
    as [Herr [_ Hsame]].
  - cbn. lia.
  - right. reflexivity.
  - reflexivity.
  - split; [exact Herr | apply Hsame].
Defined.
